(** * window-setup-fnm.mjs: the Windows set-up script of fnm

    A shallow embedding of [src/window-setup-fnm.mjs] and the properties of
    its two configurators: the PowerShell profile editor [setupPowerShell]
    and the cmd.exe AutoRun installer [setupCmd].

    JavaScript strings are sequences of UTF-16 code units, written here as
    [list N].  Files are held as their bytes: [readFileSync (_, 'utf8')]
    decodes them and [writeFileSync (_, _, 'utf8')] encodes the string it
    is given.  The host (Node's [os], [path], [child_process] and the
    failures of [fs]) is an interface, [Host], whose answers the script
    cannot influence. *)

From Stdlib Require Import NArith ZArith String Ascii Bool Lia.
From stdpp Require Import base option list gmap.

Local Open Scope N_scope.
Local Open Scope list_scope.

(** ** JavaScript strings *)

Abbreviation jsstring := (list N).

(** An ASCII literal of the source, as code units. *)
Definition js (s : string) : jsstring :=
  List.map N_of_ascii (list_ascii_of_string s).

Definition nl : jsstring := [0x0A].
Definition dquote : jsstring := [0x22].

(** ECMAScript LineTerminator: LF, CR, LS, PS. *)
Definition isLineTerminator (c : N) : bool :=
  (c =? 0x0A) || (c =? 0x0D) || (c =? 0x2028) || (c =? 0x2029).

(** ECMAScript WhiteSpace: TAB, VT, FF, ZWNBSP and the space separators. *)
Definition isWhiteSpace (c : N) : bool :=
  (c =? 0x09) || (c =? 0x0B) || (c =? 0x0C) || (c =? 0x20) || (c =? 0xA0)
  || (c =? 0x1680) || ((0x2000 <=? c) && (c <=? 0x200A))
  || (c =? 0x202F) || (c =? 0x205F) || (c =? 0x3000) || (c =? 0xFEFF).

(** What [String.prototype.trim] strips and what [\s] matches. *)
Definition isSpace (c : N) : bool := isWhiteSpace c || isLineTerminator c.

Fixpoint trimStart (s : jsstring) : jsstring :=
  match s with
  | c :: s' => if isSpace c then trimStart s' else s
  | [] => []
  end.

Definition trimEnd (s : jsstring) : jsstring := rev (trimStart (rev s)).

Definition trim (s : jsstring) : jsstring := trimEnd (trimStart s).

Fixpoint startsWith (s needle : jsstring) : bool :=
  match needle, s with
  | [], _ => true
  | _ :: _, [] => false
  | n :: needle', c :: s' => (c =? n) && startsWith s' needle'
  end.

(** [String.prototype.includes]: the needle occurs at some position. *)
Fixpoint includes (s needle : jsstring) : bool :=
  startsWith s needle ||
  match s with
  | [] => false
  | _ :: s' => includes s' needle
  end.

(** A string is truthy when it is not empty. *)
Definition truthy (s : jsstring) : bool :=
  match s with [] => false | _ :: _ => true end.

(** ** UTF-8, as [fs] reads and writes it with the ['utf8'] encoding

    Bytes are numbers below 256.  Encoding turns a surrogate pair into one
    code point of four bytes and a surrogate on its own into U+FFFD.
    Decoding follows the decoder of the Encoding Standard: every byte, or
    run of bytes, that is not well-formed UTF-8 becomes one U+FFFD, and the
    byte order mark is kept. *)

Abbreviation bytes := (list N).

Definition isHighSurrogate (c : N) : bool := (0xD800 <=? c) && (c <=? 0xDBFF).

Definition isLowSurrogate (c : N) : bool := (0xDC00 <=? c) && (c <=? 0xDFFF).

(** U+FFFD in UTF-8. *)
Definition replacement : bytes := [0xEF; 0xBF; 0xBD].

Definition encodeCodePoint (cp : N) : bytes :=
  if cp <? 0x80 then [cp]
  else if cp <? 0x800 then
    [N.lor 0xC0 (N.shiftr cp 6); N.lor 0x80 (N.land cp 0x3F)]
  else if cp <? 0x10000 then
    [N.lor 0xE0 (N.shiftr cp 12);
     N.lor 0x80 (N.land (N.shiftr cp 6) 0x3F);
     N.lor 0x80 (N.land cp 0x3F)]
  else
    [N.lor 0xF0 (N.shiftr cp 18);
     N.lor 0x80 (N.land (N.shiftr cp 12) 0x3F);
     N.lor 0x80 (N.land (N.shiftr cp 6) 0x3F);
     N.lor 0x80 (N.land cp 0x3F)].

Definition codePoint (high low : N) : N :=
  0x10000 + (high - 0xD800) * 0x400 + (low - 0xDC00).

Fixpoint utf8_encode (s : jsstring) : bytes :=
  match s with
  | [] => []
  | c :: rest =>
      if isHighSurrogate c then
        match rest with
        | low :: rest' =>
            if isLowSurrogate low
            then encodeCodePoint (codePoint c low) ++ utf8_encode rest'
            else replacement ++ utf8_encode rest
        | [] => replacement
        end
      else if isLowSurrogate c then replacement ++ utf8_encode rest
      else encodeCodePoint c ++ utf8_encode rest
  end.

(** The continuation bytes a lead byte allows next: [80..BF] in general,
    narrowed after E0, ED, F0 and F4. *)
Inductive trail : Type :=
| AnyTrail
| AfterE0
| AfterED
| AfterF0
| AfterF4.

Definition lowerBound (t : trail) : N :=
  match t with
  | AfterE0 => 0xA0
  | AfterF0 => 0x90
  | _ => 0x80
  end.

Definition upperBound (t : trail) : N :=
  match t with
  | AfterED => 0x9F
  | AfterF4 => 0x8F
  | _ => 0xBF
  end.

(** The decoder between two bytes: idle, or inside a sequence with the bits
    read so far and the number of bytes still to come. *)
Inductive decoder : Type :=
| Idle
| Pending (bits : N) (needed : nat) (next : trail).

Definition codeUnits (cp : N) : jsstring :=
  if cp <? 0x10000 then [cp]
  else [0xD800 + N.shiftr (cp - 0x10000) 10;
        0xDC00 + N.land (cp - 0x10000) 0x3FF].

(** A byte met while idle. *)
Definition lead (b : N) : jsstring * decoder :=
  if b <? 0x80 then ([b], Idle)
  else if (0xC2 <=? b) && (b <=? 0xDF) then
    ([], Pending (N.land b 0x1F) 1 AnyTrail)
  else if (0xE0 <=? b) && (b <=? 0xEF) then
    ([], Pending (N.land b 0x0F) 2
           (if b =? 0xE0 then AfterE0
            else if b =? 0xED then AfterED else AnyTrail))
  else if (0xF0 <=? b) && (b <=? 0xF4) then
    ([], Pending (N.land b 0x07) 3
           (if b =? 0xF0 then AfterF0
            else if b =? 0xF4 then AfterF4 else AnyTrail))
  else ([0xFFFD], Idle).

(** One byte: what is emitted and the decoder after it.  A byte that cannot
    continue the sequence ends it with U+FFFD and is read again as a lead. *)
Definition decodeByte (d : decoder) (b : N) : jsstring * decoder :=
  match d with
  | Idle => lead b
  | Pending bits needed next =>
      if (lowerBound next <=? b) && (b <=? upperBound next) then
        let bits' := N.lor (N.shiftl bits 6) (N.land b 0x3F) in
        match needed with
        | S (S n) => ([], Pending bits' (S n) AnyTrail)
        | _ => (codeUnits bits', Idle)
        end
      else
        let (out, d') := lead b in (0xFFFD :: out, d')
  end.

Fixpoint decodeFrom (d : decoder) (input : bytes) : jsstring :=
  match input with
  | [] => match d with Idle => [] | Pending _ _ _ => [0xFFFD] end
  | b :: rest =>
      let (out, d') := decodeByte d b in out ++ decodeFrom d' rest
  end.

Definition utf8_decode (input : bytes) : jsstring := decodeFrom Idle input.

(** ** Regular expressions

    The fragment of ECMAScript patterns the script uses: single characters,
    [\s], [.], the greedy [+] on one of these, and one capturing group.
    Matching is by backtracking, longest repetition first. *)

Inductive atom : Type :=
| Char (c : N)
| ClassS
| Dot.

Definition accepts (a : atom) (c : N) : bool :=
  match a with
  | Char d => c =? d
  | ClassS => isSpace c
  | Dot => negb (isLineTerminator c)
  end.

Inductive term : Type :=
| One (a : atom)
| Plus (a : atom)
| GroupOpen
| GroupClose.

(** [matchHere r opened cap s] matches the pattern [r] at the head of [s];
    [opened] is the input as it was when the group was entered, [cap] the
    text captured by the group so far.  The result is the capture. *)
Fixpoint matchHere (r : list term) (opened : jsstring) (cap : option jsstring)
    (s : jsstring) : option (option jsstring) :=
  match r with
  | [] => Some cap
  | One a :: r' =>
      match s with
      | c :: s' => if accepts a c then matchHere r' opened cap s' else None
      | [] => None
      end
  | Plus a :: r' =>
      let more :=
        fix more (s : jsstring) : option (option jsstring) :=
          match s with
          | c :: s' =>
              if accepts a c then
                match more s' with
                | Some m => Some m
                | None => matchHere r' opened cap s
                end
              else matchHere r' opened cap s
          | [] => matchHere r' opened cap s
          end in
      match s with
      | c :: s' => if accepts a c then more s' else None
      | [] => None
      end
  | GroupOpen :: r' => matchHere r' s cap s
  | GroupClose :: r' =>
      matchHere r' opened
        (Some (take (length opened - length s)%nat opened)) s
  end.

(** [str.match(re)] for a pattern without the [g] flag: the first position,
    from the left, at which the pattern matches; [None] is [null], and the
    value is element [1] of the match array ([None] when undefined). *)
Fixpoint jsmatch (s : jsstring) (r : list term) : option (option jsstring) :=
  match matchHere r [] None s with
  | Some m => Some m
  | None =>
      match s with
      | [] => None
      | _ :: s' => jsmatch s' r
      end
  end.

Definition chars (s : string) : list term :=
  List.map (fun c => One (Char c)) (js s).

(** The pattern [/AutoRun\s+REG_SZ\s+(.+)/]. *)
Definition autoRunPattern : list term :=
  chars "AutoRun" ++ [Plus ClassS] ++ chars "REG_SZ"
  ++ [Plus ClassS; GroupOpen; Plus Dot; GroupClose].

(** ** The host and the world

    [World] is what the script can observe or change: the file system (a
    file with its bytes, or a directory, at each path that exists), the
    commands it has handed to [execSync], in order, and the console. *)

Inductive node : Type :=
| File (content : bytes)
| Dir.

Inductive fs_op : Type :=
| OpRead (path : jsstring)
| OpMkdir (path : jsstring)
| OpWrite (path data : jsstring).

Inductive line : Type :=
| Log (text : jsstring)
| ErrorLog (text : jsstring).

Record World : Type := mkWorld {
  fs : gmap (list N) node;
  execd : list jsstring;
  console : list line
}.

(** Node's modules as the script imports them.  [spawn] answers a command
    given the commands run before it: [inr] is the captured standard output
    of a command that exits with status zero, [inl] the message of the error
    [execSync] throws otherwise.  [io_fault] lets the host refuse a file
    operation (permissions, a missing parent directory, a file where a
    directory is needed) with a message. *)
Class Host : Type := {
  homedir : jsstring;
  join : list jsstring -> jsstring;
  spawn : list jsstring -> jsstring -> jsstring + jsstring;
  io_fault : gmap (list N) node -> fs_op -> option jsstring
}.

(** ** Control flow: exceptions and [process.exit] *)

Inductive exn : Type :=
| Error (message : jsstring).

Definition message (e : exn) : jsstring :=
  match e with Error m => m end.

Inductive res (A : Type) : Type :=
| Ok (a : A)
| Throw (e : exn)
| Exit (code : Z).

Arguments Ok {A} a.
Arguments Throw {A} e.
Arguments Exit {A} code.

Definition M (A : Type) : Type := World -> res A * World.

#[global] Instance M_ret : MRet M := fun A a w => (Ok a, w).

#[global] Instance M_bind : MBind M := fun A B k m w =>
  match m w with
  | (Ok a, w') => k a w'
  | (Throw e, w') => (Throw e, w')
  | (Exit c, w') => (Exit c, w')
  end.

(** [try { body } catch (e) { handler }]: only a thrown exception reaches
    the handler, [process.exit] does not. *)
Definition try_catch {A : Type} (body : M A) (handler : exn -> M A) : M A :=
  fun w =>
    match body w with
    | (Throw e, w') => handler e w'
    | r => r
    end.

Definition process_exit {A : Type} (code : Z) : M A := fun w => (Exit code, w).

Definition console_log (text : jsstring) : M unit := fun w =>
  (Ok tt, mkWorld (fs w) (execd w) (console w ++ [Log text])).

Definition console_error (text : jsstring) : M unit := fun w =>
  (Ok tt, mkWorld (fs w) (execd w) (console w ++ [ErrorLog text])).

Section Script.
Context `{Host}.

(** ** child_process and fs *)

Definition execSync (command : jsstring) : M jsstring := fun w =>
  let w' := mkWorld (fs w) (execd w ++ [command]) (console w) in
  match spawn (execd w) command with
  | inr stdout => (Ok stdout, w')
  | inl msg => (Throw (Error msg), w')
  end.

Definition existsSync (path : jsstring) : M bool := fun w =>
  (Ok (bool_decide (is_Some (fs w !! path))), w).

(** [readFileSync (path, 'utf8')]. *)
Definition readFileSync (path : jsstring) : M jsstring := fun w =>
  match io_fault (fs w) (OpRead path) with
  | Some msg => (Throw (Error msg), w)
  | None =>
      match fs w !! path with
      | Some (File content) => (Ok (utf8_decode content), w)
      | Some Dir =>
          (Throw (Error (js "EISDIR: illegal operation on a directory, read")), w)
      | None =>
          (Throw (Error (js "ENOENT: no such file or directory, open")), w)
      end
  end.

(** The directories above a path, nearest last: what stands before each
    backslash of the path. *)
Fixpoint ancestorsFrom (before rest : jsstring) : list jsstring :=
  match rest with
  | [] => []
  | c :: rest' =>
      (if (c =? 0x5C) && truthy before then [before] else [])
      ++ ancestorsFrom (before ++ [c]) rest'
  end.

Definition ancestors (path : jsstring) : list jsstring := ancestorsFrom [] path.

Definition makeDir (path : jsstring) (files : gmap (list N) node)
    : gmap (list N) node :=
  match files !! path with
  | None => <[path := Dir]> files
  | Some _ => files
  end.

(** [mkdirSync (path, { recursive: true })]: the directory and every
    directory above it that is missing are made; what exists is left as it
    is.  A file standing where a directory is needed is the host's to
    refuse. *)
Definition mkdirSync (path : jsstring) : M unit := fun w =>
  match io_fault (fs w) (OpMkdir path) with
  | Some msg => (Throw (Error msg), w)
  | None =>
      match fs w !! path with
      | Some (File _) =>
          (Throw (Error (js "EEXIST: file already exists, mkdir")), w)
      | _ =>
          (Ok tt,
           mkWorld (foldr makeDir (fs w) (path :: ancestors path))
                   (execd w) (console w))
      end
  end.

(** [writeFileSync (path, data, 'utf8')]. *)
Definition writeFileSync (path data : jsstring) : M unit := fun w =>
  match io_fault (fs w) (OpWrite path data) with
  | Some msg => (Throw (Error msg), w)
  | None =>
      match fs w !! path with
      | Some Dir =>
          (Throw (Error (js "EISDIR: illegal operation on a directory, open")), w)
      | _ =>
          (Ok tt,
           mkWorld (<[path := File (utf8_encode data)]> (fs w))
                   (execd w) (console w))
      end
  end.

(** ** The script *)

Definition USER_HOME : jsstring := homedir.

Definition POWERSHELL_PROFILE_5 : jsstring :=
  join [USER_HOME; js "Documents"; js "WindowsPowerShell";
        js "Microsoft.PowerShell_profile.ps1"].

Definition POWERSHELL_PROFILE_6 : jsstring :=
  join [USER_HOME; js "Documents"; js "PowerShell";
        js "Microsoft.PowerShell_profile.ps1"].

Definition CMD_INIT_FILE : jsstring := join [USER_HOME; js "fnm_init.cmd"].

(** The pictographs of the messages, as UTF-16 code units. *)
Definition rocket : jsstring := [0xD83D; 0xDE80].
Definition check_mark : jsstring := [0x2705].
Definition cross_mark : jsstring := [0x274C].
Definition memo : jsstring := [0xD83D; 0xDCDD].
Definition warning : jsstring := [0x26A0; 0xFE0F].
Definition page : jsstring := [0xD83D; 0xDCC4].
Definition sparkles : jsstring := [0x2728].
Definition clipboard : jsstring := [0xD83D; 0xDCCB].
Definition bulb : jsstring := [0xD83D; 0xDCA1].

Definition preflight : M unit :=
  try_catch
    (_ ← execSync (js "fnm --version");
     console_log (check_mark ++ js " fnm is installed"))
    (fun error =>
       console_error (cross_mark ++ js " fnm is not installed or not in PATH");;
       console_error (js "   Please install fnm first using: choco install fnm");;
       process_exit 1%Z).

Definition fnmInitLine : jsstring :=
  js "fnm env --use-on-cd --corepack-enabled --shell powershell | Out-String | Invoke-Expression".

Definition markerBlock : jsstring :=
  js "# fnm (Fast Node Manager)" ++ nl ++ fnmInitLine ++ nl.

(** The profile to edit (lines 36 to 39): [POWERSHELL_PROFILE_5] unless
    [!existsSync(POWERSHELL_PROFILE_5) && existsSync(POWERSHELL_PROFILE_6)]. *)
Definition profilePath : M jsstring :=
  exists5 ← existsSync POWERSHELL_PROFILE_5;
  fallback ← (if negb exists5 then existsSync POWERSHELL_PROFILE_6
              else mret false);
  mret (if fallback : bool then POWERSHELL_PROFILE_6 else POWERSHELL_PROFILE_5).

(** Lines 61 to 63. *)
Definition newContent (profileContent : jsstring) : jsstring :=
  if truthy profileContent
  then profileContent ++ nl ++ nl ++ js "# fnm (Fast Node Manager)" ++ nl
       ++ fnmInitLine ++ nl
  else js "# fnm (Fast Node Manager)" ++ nl ++ fnmInitLine ++ nl.

(** [setupPowerShell].  The [return] of line 50 is the [None] of the first
    phase; [Some profileContent] goes on to the write. *)
Definition setupPowerShell : M unit :=
  console_log (nl ++ memo ++ js " Setting up PowerShell profile...");;
  profilePath ← profilePath;
  present ← existsSync profilePath;
  pending ←
    (if present : bool then
       profileContent ← readFileSync profilePath;
       if includes profileContent (js "fnm env") then
         console_log (js "   " ++ warning
                      ++ js "  PowerShell profile already contains fnm configuration");;
         console_log (js "   " ++ page ++ js " Profile location: " ++ profilePath);;
         mret None
       else mret (Some profileContent)
     else
       let profileDir := join [profilePath; js ".."] in
       dirPresent ← existsSync profileDir;
       (if negb dirPresent then mkdirSync profileDir else mret tt);;
       mret (Some []));
  match pending with
  | None => mret tt
  | Some profileContent =>
      writeFileSync profilePath (newContent profileContent);;
      console_log (js "   " ++ check_mark ++ js " PowerShell profile configured");;
      console_log (js "   " ++ page ++ js " Profile location: " ++ profilePath)
  end.

Definition cmdContent : jsstring :=
  js "@echo off" ++ nl
  ++ js ":: for /F will launch a new instance of cmd so we create a guard to prevent an infinite loop" ++ nl
  ++ js "if not defined FNM_AUTORUN_GUARD (" ++ nl
  ++ js "    set " ++ dquote ++ js "FNM_AUTORUN_GUARD=AutorunGuard" ++ dquote ++ nl
  ++ js "    FOR /f " ++ dquote ++ js "tokens=*" ++ dquote
  ++ js " %%z IN ('fnm env --use-on-cd --corepack-enabled --shell cmd') DO CALL %%z" ++ nl
  ++ js ")" ++ nl.

Definition regPath : jsstring := js "HKCU\Software\Microsoft\Command Processor".

Definition regQuery : jsstring :=
  js "reg query " ++ dquote ++ regPath ++ dquote ++ js " /v AutoRun 2>nul".

Definition regAdd (newAutoRun : jsstring) : jsstring :=
  js "reg add " ++ dquote ++ regPath ++ dquote ++ js " /v AutoRun /t REG_SZ /d "
  ++ dquote ++ newAutoRun ++ dquote ++ js " /f".

(** Lines 95 to 103: the value captured by the pattern, trimmed, or the
    empty string.  When [match[1]] is undefined, [match[1].trim()] throws
    and the [catch] of line 101 leaves [existingValue] empty. *)
Definition existingValue (currentAutoRun : jsstring) : jsstring :=
  match jsmatch currentAutoRun autoRunPattern with
  | Some (Some captured) => trim captured
  | Some None => []
  | None => []
  end.

(** Lines 106 to 108. *)
Definition newAutoRun (existingValue : jsstring) : jsstring :=
  if truthy existingValue
  then existingValue ++ js " & " ++ CMD_INIT_FILE
  else CMD_INIT_FILE.

Definition setupCmd : M unit :=
  console_log (nl ++ memo ++ js " Setting up Command Prompt (cmd.exe)...");;
  writeFileSync CMD_INIT_FILE cmdContent;;
  console_log (js "   " ++ check_mark ++ js " Created initialization script: "
               ++ CMD_INIT_FILE);;
  try_catch
    (stdout ← execSync regQuery;
     let currentAutoRun := trim stdout in
     if includes currentAutoRun CMD_INIT_FILE then
       console_log (js "   " ++ warning ++ js "  AutoRun already configured")
     else
       let existingValue := existingValue currentAutoRun in
       _ ← execSync (regAdd (newAutoRun existingValue));
       console_log (js "   " ++ check_mark ++ js " Configured AutoRun in registry"))
    (fun error =>
       console_log (js "   " ++ warning
                    ++ js "  Could not configure AutoRun automatically");;
       console_log (js "   " ++ memo ++ js " Manual setup: Add this to registry:");;
       console_log (js "      HKCU\Software\Microsoft\Command Processor\AutoRun");;
       console_log (js "      Value: " ++ CMD_INIT_FILE)).

(** Lines 122 to 136. *)
Definition main : M unit :=
  try_catch
    (setupPowerShell;;
     setupCmd;;
     console_log (nl ++ sparkles ++ js " Setup complete!");;
     console_log (nl ++ clipboard ++ js " Next steps:");;
     console_log (js "   1. Open a new PowerShell window to test PowerShell setup");;
     console_log (js "   2. Open a new Command Prompt window to test cmd.exe setup");;
     console_log (js "   3. Run: fnm install <version> to install Node.js");;
     console_log (js "   4. Run: fnm use <version> to switch Node.js versions");;
     console_log (nl ++ bulb ++ js " Tip: Use " ++ dquote ++ js "fnm install --lts"
                  ++ dquote ++ js " to install the latest LTS version"))
    (fun error =>
       console_error (nl ++ cross_mark ++ js " Error during setup:" ++ js " "
                      ++ message error);;
       process_exit 1%Z).

(** The module, top to bottom. *)
Definition script : M unit :=
  console_log (rocket ++ js " Setting up fnm for Windows..." ++ nl);;
  preflight;;
  main.

(** The status the process ends with: 0 when the module runs to its end, 1
    on an uncaught exception, the argument of [process.exit] otherwise. *)
Definition exitStatus {A : Type} (r : res A) : Z :=
  match r with
  | Ok _ => 0%Z
  | Throw _ => 1%Z
  | Exit code => code
  end.

Definition run (w : World) : Z * World :=
  let (r, w') := script w in (exitStatus r, w').

(** ** Vocabulary of the statements *)

(** The host lets [writeFileSync] store [data] at [path]. *)
Definition writable (files : gmap (list N) node) (path data : jsstring) : Prop :=
  io_fault files (OpWrite path data) = None /\ files !! path <> Some Dir.

(** The host refuses no file operation. *)
Definition permissive : Prop :=
  forall (files : gmap (list N) node) (op : fs_op), io_fault files op = None.

(** The world in which [main] starts when fnm is installed. *)
Definition preflightPassed (w : World) : World :=
  mkWorld (fs w) (execd w ++ [js "fnm --version"])
    (console w ++ [Log (rocket ++ js " Setting up fnm for Windows..." ++ nl);
                   Log (check_mark ++ js " fnm is installed")]).

Definition profileHeader : line :=
  Log (nl ++ memo ++ js " Setting up PowerShell profile...").

(** Lines 48 and 49. *)
Definition profileKept (profilePath : jsstring) : list line :=
  [Log (js "   " ++ warning
        ++ js "  PowerShell profile already contains fnm configuration");
   Log (js "   " ++ page ++ js " Profile location: " ++ profilePath)].

(** Lines 66 and 67. *)
Definition profileConfigured (profilePath : jsstring) : list line :=
  [Log (js "   " ++ check_mark ++ js " PowerShell profile configured");
   Log (js "   " ++ page ++ js " Profile location: " ++ profilePath)].

(** What [setupCmd] prints before it turns to the registry. *)
Definition cmdHeader : list line :=
  [Log (nl ++ memo ++ js " Setting up Command Prompt (cmd.exe)...");
   Log (js "   " ++ check_mark ++ js " Created initialization script: "
        ++ CMD_INIT_FILE)].

Definition autoRunKept : line :=
  Log (js "   " ++ warning ++ js "  AutoRun already configured").

Definition autoRunConfigured : line :=
  Log (js "   " ++ check_mark ++ js " Configured AutoRun in registry").

(** The warning of lines 114 to 117. *)
Definition manualSetup : list line :=
  [Log (js "   " ++ warning ++ js "  Could not configure AutoRun automatically");
   Log (js "   " ++ memo ++ js " Manual setup: Add this to registry:");
   Log (js "      HKCU\Software\Microsoft\Command Processor\AutoRun");
   Log (js "      Value: " ++ CMD_INIT_FILE)].

(** Lines 126 to 132. *)
Definition completion : list line :=
  [Log (nl ++ sparkles ++ js " Setup complete!");
   Log (nl ++ clipboard ++ js " Next steps:");
   Log (js "   1. Open a new PowerShell window to test PowerShell setup");
   Log (js "   2. Open a new Command Prompt window to test cmd.exe setup");
   Log (js "   3. Run: fnm install <version> to install Node.js");
   Log (js "   4. Run: fnm use <version> to switch Node.js versions");
   Log (nl ++ bulb ++ js " Tip: Use " ++ dquote ++ js "fnm install --lts"
        ++ dquote ++ js " to install the latest LTS version")].

(** The world after [n] calls of [setupCmd]. *)
Definition repeatSetupCmd (n : nat) (w : World) : World :=
  Nat.iter n (fun w => (setupCmd w).2) w.

(** [m] never ends the process: it returns or throws. *)
Definition never_exits {A : Type} (m : M A) : Prop :=
  forall (w w' : World) (code : Z), m w <> (Exit code, w').

(** The commands [setupCmd] may have run: none, the query, or the query and
    one [reg add]. *)
Definition registryCommands (commands : list jsstring) : Prop :=
  commands = [] \/ commands = [regQuery]
  \/ exists value, commands = [regQuery; regAdd value].

End Script.

(** ** A host to run the script on

    The home directory is [C:\Users\dev]; [join] glues the segments with a
    backslash and resolves a final [..]; no file operation is refused.  The
    three commands of the script are answered from the parameters: whether
    fnm is installed, what [reg query] prints (or the error it ends with),
    and whether [reg add] is allowed. *)

Module Demo.

Definition backslash : jsstring := [0x5C].

Fixpoint joinWith (parts : list jsstring) : jsstring :=
  match parts with
  | [] => []
  | [p] => p
  | p :: rest => p ++ backslash ++ joinWith rest
  end.

Fixpoint dropSegment (reversed : jsstring) : jsstring :=
  match reversed with
  | [] => []
  | c :: rest => if c =? 0x5C then rest else dropSegment rest
  end.

Definition dirname (path : jsstring) : jsstring := rev (dropSegment (rev path)).

Definition joinPath (parts : list jsstring) : jsstring :=
  match rev parts with
  | last :: init =>
      if bool_decide (last = js "..") then dirname (joinWith (rev init))
      else joinWith parts
  | [] => js "."
  end.

Definition answer (fnm : bool) (query : jsstring + jsstring) (writable : bool)
    (history : list jsstring) (command : jsstring) : jsstring + jsstring :=
  if bool_decide (command = js "fnm --version") then
    if fnm then inr (js "fnm 1.38.1" ++ nl)
    else inl (js "Command failed: fnm --version")
  else if bool_decide (command = regQuery) then query
  else if startsWith command (js "reg add ") then
    if writable then inr (js "The operation completed successfully.")
    else inl (js "Command failed: reg add")
  else inl (js "Command failed").

Definition host (fnm : bool) (query : jsstring + jsstring) (writable : bool)
    : Host :=
  {| homedir := js "C:\Users\dev";
     join := joinPath;
     spawn := answer fnm query writable;
     io_fault := fun _ _ => None |}.

(** What [reg query "HKCU\Software\Microsoft\Command Processor" /v AutoRun]
    prints for a value of the given type. *)
Definition regOutput (type data : jsstring) : jsstring :=
  js "HKEY_CURRENT_USER\Software\Microsoft\Command Processor" ++ [0x0D; 0x0A]
  ++ js "    AutoRun    " ++ type ++ js "    " ++ data.

Definition regPrinted (type data : jsstring) : jsstring :=
  [0x0D; 0x0A] ++ regOutput type data ++ [0x0D; 0x0A; 0x0D; 0x0A].

(** What [reg query] prints when AutoRun is a REG_SZ value naming another
    script, when it names the init script already, and when it is a
    REG_EXPAND_SZ value. *)
Definition printed : jsstring :=
  regPrinted (js "REG_SZ") (js "C:\tools\init.bat").

Definition printedConfigured : jsstring :=
  regPrinted (js "REG_SZ") (js "C:\Users\dev\fnm_init.cmd").

Definition printedExpandable : jsstring :=
  regPrinted (js "REG_EXPAND_SZ") (js "%USERPROFILE%\init.bat").

(** Hosts: AutoRun unset; AutoRun set; the same with [reg add] refused;
    AutoRun naming the init script; AutoRun of type REG_EXPAND_SZ. *)
Definition unset : Host :=
  host true (inl (js "Command failed: reg query")) true.

Definition withValue : Host := host true (inr printed) true.

Definition denied : Host := host true (inr printed) false.

Definition configured : Host := host true (inr printedConfigured) true.

Definition expandable : Host := host true (inr printedExpandable) true.

(** Worlds: nothing on disk; a PowerShell 5 profile with an alias in it; a
    PowerShell 6 profile only; a stale init script; the world after a first
    call of [setupPowerShell]; the world in which [setupCmd] starts when
    the whole script runs on an empty disk. *)
Definition fresh : World := mkWorld ∅ [] [].

Definition aliasLine : jsstring := js "Set-Alias ll Get-ChildItem" ++ nl.

Definition withProfile : World :=
  mkWorld {[ @POWERSHELL_PROFILE_5 unset := File aliasLine ]} [] [].

Definition withProfile6 : World :=
  mkWorld {[ @POWERSHELL_PROFILE_6 unset := File aliasLine ]} [] [].

Definition staleScript : World :=
  mkWorld {[ @CMD_INIT_FILE unset := File (js "echo old") ]} [] [].

Definition profiled : World := (@setupPowerShell unset fresh).2.

Definition readyForCmd : World :=
  (@setupPowerShell denied (preflightPassed fresh)).2.

(** More hosts.  fnm missing; a home directory in which the init script
    cannot be written; a disk on which nothing can be read. *)
Definition noFnm : Host :=
  host false (inl (js "Command failed: reg query")) true.

Definition readOnlyHome : Host :=
  {| homedir := js "C:\Users\dev";
     join := joinPath;
     spawn := answer true (inr printed) true;
     io_fault := fun _ op =>
       match op with
       | OpWrite path _ =>
           if bool_decide (path = js "C:\Users\dev\fnm_init.cmd")
           then Some (js "EPERM: operation not permitted, open")
           else None
       | _ => None
       end |}.

Definition unreadable : Host :=
  {| homedir := js "C:\Users\dev";
     join := joinPath;
     spawn := answer true (inr printed) true;
     io_fault := fun _ op =>
       match op with
       | OpRead _ => Some (js "EACCES: permission denied, open")
       | _ => None
       end |}.

(** A host that keeps AutoRun: [reg add] stores its data, [reg query]
    prints the data stored last, or fails while there is none. *)
Definition addPrefix : jsstring :=
  js "reg add " ++ dquote ++ regPath ++ dquote
  ++ js " /v AutoRun /t REG_SZ /d " ++ dquote.

Definition addedValue (command : jsstring) : option jsstring :=
  if startsWith command addPrefix then
    let tail := drop (length addPrefix) command in
    Some (take (length tail - 4) tail)
  else None.

Definition stored (initial : option jsstring) (history : list jsstring)
    : option jsstring :=
  foldl (fun value command =>
           match addedValue command with
           | Some data => Some data
           | None => value
           end) initial history.

Definition registryAnswer (initial : option jsstring)
    (history : list jsstring) (command : jsstring) : jsstring + jsstring :=
  if bool_decide (command = js "fnm --version") then
    inr (js "fnm 1.38.1" ++ nl)
  else if bool_decide (command = regQuery) then
    match stored initial history with
    | Some data => inr (regPrinted (js "REG_SZ") data)
    | None => inl (js "Command failed: reg query")
    end
  else if startsWith command (js "reg add ") then
    inr (js "The operation completed successfully.")
  else inl (js "Command failed").

Definition registry (initial : option jsstring) : Host :=
  {| homedir := js "C:\Users\dev";
     join := joinPath;
     spawn := registryAnswer initial;
     io_fault := fun _ _ => None |}.

Definition keeping : Host := registry (Some (js "C:\tools\init.bat")).

Definition printedJoined : jsstring :=
  regPrinted (js "REG_SZ")
    (js "C:\tools\init.bat & C:\Users\dev\fnm_init.cmd").

(** More worlds: an empty profile; a profile that only mentions the
    command in a comment; the world after [setupPowerShell] in the
    read-only home; the world in which the unreadable profile was found. *)
Definition emptyProfile : World :=
  mkWorld {[ @POWERSHELL_PROFILE_5 unset := File [] ]} [] [].

Definition todoBefore : jsstring := js "# TODO: run ".

Definition todoAfter : jsstring := js " by hand" ++ nl.

Definition commentedProfile : World :=
  mkWorld {[ @POWERSHELL_PROFILE_5 unset
             := File (todoBefore ++ js "fnm env" ++ todoAfter) ]} [] [].

Definition profiledReadOnly : World := (@setupPowerShell readOnlyHome fresh).2.

Definition profileFound : World := (@setupPowerShell unreadable withProfile).2.

(** Profiles as the bytes on disk: one saved as UTF-16 with its byte-order
    mark, holding [ls] and a line end; one saved as UTF-8, holding a comment
    with an accented letter. *)
Definition utf16Profile : bytes :=
  [0xFF; 0xFE; 0x6C; 0x00; 0x73; 0x00; 0x0D; 0x00; 0x0A; 0x00].

Definition withUtf16Profile : World :=
  mkWorld {[ @POWERSHELL_PROFILE_5 unset := File utf16Profile ]} [] [].

Definition accentedProfile : bytes :=
  [0x23; 0x20; 0x63; 0x61; 0x66; 0xC3; 0xA9; 0x0A].

Definition withAccentedProfile : World :=
  mkWorld {[ @POWERSHELL_PROFILE_5 unset := File accentedProfile ]} [] [].

End Demo.

(** ** Strings: trimming and searching *)

Arguments js : simpl never.

Lemma includes_app_r (s t needle : jsstring) :
  includes t needle = true -> includes (s ++ t) needle = true.
Proof.
  intros Ht. induction s as [|c s IH]; [exact Ht|].
  change (startsWith (c :: s ++ t) needle || includes (s ++ t) needle = true).
  rewrite IH. apply orb_true_r.
Qed.

Lemma newContent_marked (profileContent : jsstring) :
  includes (newContent profileContent) (js "fnm env") = true.
Proof.
  unfold newContent. destruct (truthy profileContent).
  - apply includes_app_r. vm_compute. reflexivity.
  - vm_compute. reflexivity.
Qed.

Lemma trimStart_length (s : jsstring) : (length (trimStart s) <= length s)%nat.
Proof.
  induction s as [|c s IH]; simpl; [lia|].
  destruct (isSpace c); simpl; lia.
Qed.


(** A string that trimming leaves alone starts with a character that is not
    a space, unless it is empty. *)
Lemma trimStart_fixed_head (c : N) (s : jsstring) :
  (length (c :: s) <= length (trimStart (c :: s)))%nat -> isSpace c = false.
Proof.
  simpl. destruct (isSpace c); [|reflexivity].
  intros Hlen. pose proof (trimStart_length s). lia.
Qed.



(** ** The pattern matcher *)

(** [a+] is [a] followed by as many more as can be had. *)
Lemma matchHere_plus_cons (a : atom) (r : list term) (opened : jsstring)
    (cap : option jsstring) (c : N) (s : jsstring) :
  accepts a c = true ->
  matchHere (Plus a :: r) opened cap (c :: s) =
  match matchHere (Plus a :: r) opened cap s with
  | Some m => Some m
  | None => matchHere r opened cap s
  end.
Proof.
  intros Hc. destruct s as [|c' s]; simpl; rewrite Hc; [reflexivity|].
  destruct (accepts a c'); reflexivity.
Qed.







Lemma forallb_rev_true {A : Type} (f : A -> bool) (l : list A) :
  forallb f l = true -> forallb f (rev l) = true.
Proof.
  rewrite !forallb_forall. intros Hall x Hx. apply Hall, in_rev, Hx.
Qed.




(** ** More on strings *)

Lemma startsWith_spec (s needle : jsstring) :
  startsWith s needle = true <-> exists post, s = needle ++ post.
Proof.
  revert s. induction needle as [|n needle IH]; intros s.
  - split; [intros _; exists s; reflexivity|]. intros _. destruct s; reflexivity.
  - destruct s as [|c s].
    + split; [discriminate|]. intros [post Hpost]. discriminate.
    + simpl. rewrite andb_true_iff, N.eqb_eq, IH. split.
      * intros [-> [post ->]]. exists post. reflexivity.
      * intros [post Hpost]. injection Hpost as -> ->. eauto.
Qed.

(** [includes] is the substring relation. *)
Lemma includes_spec (s needle : jsstring) :
  includes s needle = true <-> exists pre post, s = pre ++ needle ++ post.
Proof.
  induction s as [|c s IH].
  - change (includes [] needle) with (startsWith [] needle || false).
    rewrite orb_false_r, startsWith_spec. split.
    + intros [post Hpost]. exists [], post. exact Hpost.
    + intros (pre & post & Heq). destruct pre; [|discriminate].
      exists post. exact Heq.
  - change (includes (c :: s) needle)
      with (startsWith (c :: s) needle || includes s needle).
    rewrite orb_true_iff, startsWith_spec, IH. split.
    + intros [[post Hpost]|(pre & post & ->)].
      * exists [], post. exact Hpost.
      * exists (c :: pre), post. reflexivity.
    + intros (pre & post & Heq). destruct pre as [|c' pre].
      * left. exists post. exact Heq.
      * right. injection Heq as -> ->. eauto.
Qed.

Lemma includes_trans (s t u : jsstring) :
  includes s t = true -> includes t u = true -> includes s u = true.
Proof.
  rewrite !includes_spec. intros (p1 & q1 & ->) (p2 & q2 & ->).
  exists (p1 ++ p2), (q2 ++ q1). rewrite <- !app_assoc. reflexivity.
Qed.

Lemma forallb_trimStart (f : N -> bool) (s : jsstring) :
  forallb f s = true -> forallb f (trimStart s) = true.
Proof.
  induction s as [|c s IH]; [reflexivity|].
  intros Hall. simpl. destruct (isSpace c); [|exact Hall].
  simpl in Hall. apply andb_true_iff in Hall as [_ Hall]. exact (IH Hall).
Qed.

Lemma forallb_trim (f : N -> bool) (s : jsstring) :
  forallb f s = true -> forallb f (trim s) = true.
Proof.
  intros Hall. unfold trim, trimEnd.
  apply forallb_rev_true, forallb_trimStart, forallb_rev_true,
    forallb_trimStart, Hall.
Qed.

Lemma trimStart_idempotent (s : jsstring) :
  trimStart (trimStart s) = trimStart s.
Proof.
  induction s as [|c s IH]; [reflexivity|].
  simpl. destruct (isSpace c) eqn:Hc; [exact IH|].
  simpl. rewrite Hc. reflexivity.
Qed.

(** A string that ends with a character that is no space still ends with
    it once the spaces at its head are gone. *)
Lemma trimStart_keeps_last (s : jsstring) (c : N) :
  isSpace c = false -> exists s', trimStart (s ++ [c]) = s' ++ [c].
Proof.
  intros Hc. induction s as [|a s IH].
  - exists []. simpl. rewrite Hc. reflexivity.
  - simpl. destruct (isSpace a); [exact IH|]. exists (a :: s). reflexivity.
Qed.

Lemma trimStart_trimEnd (s : jsstring) :
  trimStart s = s -> trimStart (trimEnd s) = trimEnd s.
Proof.
  intros Hfix. destruct s as [|c s]; [reflexivity|].
  assert (Hc : isSpace c = false).
  { apply (trimStart_fixed_head c s). rewrite Hfix. lia. }
  unfold trimEnd. change (rev (c :: s)) with (rev s ++ [c]).
  destruct (trimStart_keeps_last (rev s) c Hc) as [s' ->].
  rewrite rev_app_distr. simpl. rewrite Hc. reflexivity.
Qed.

Lemma trim_idempotent (s : jsstring) : trim (trim s) = trim s.
Proof.
  unfold trim.
  rewrite (trimStart_trimEnd (trimStart s) (trimStart_idempotent s)).
  unfold trimEnd. rewrite rev_involutive, trimStart_idempotent. reflexivity.
Qed.

(** ** More on the matcher: what the group of the pattern can capture *)

Lemma matchHere_line_capture (opened : jsstring) (cap : option jsstring)
    (s : jsstring) (m : option jsstring) :
  matchHere [Plus Dot; GroupClose] opened cap s = Some m ->
  exists k, (0 < k <= length s)%nat
            /\ forallb (fun c => negb (isLineTerminator c)) (take k s) = true
            /\ m = Some (take (length opened - length (drop k s)) opened).
Proof.
  induction s as [|c s IH]; [discriminate|].
  destruct (negb (isLineTerminator c)) eqn:Hc.
  - rewrite (matchHere_plus_cons Dot _ opened cap c s Hc).
    destruct (matchHere [Plus Dot; GroupClose] opened cap s) as [m'|] eqn:Hs.
    + intros Hm. injection Hm as <-.
      destruct (IH eq_refl) as (k & Hk & Hall & ->).
      exists (S k). split; [simpl; lia|]. split; [|reflexivity].
      cbn [take forallb]. rewrite Hc. exact Hall.
    + cbn [matchHere]. intros Hm. injection Hm as <-.
      exists 1%nat. split; [simpl; lia|]. split; [|reflexivity].
      cbn [take forallb]. rewrite Hc. reflexivity.
  - cbn [matchHere accepts]. rewrite Hc. discriminate.
Qed.

Lemma matchHere_group_capture (opened : jsstring) (cap : option jsstring)
    (s : jsstring) (m : option jsstring) :
  matchHere [GroupOpen; Plus Dot; GroupClose] opened cap s = Some m ->
  exists g, m = Some g /\ g <> []
            /\ forallb (fun c => negb (isLineTerminator c)) g = true.
Proof.
  change (matchHere [GroupOpen; Plus Dot; GroupClose] opened cap s)
    with (matchHere [Plus Dot; GroupClose] s cap s).
  intros Hm. destruct (matchHere_line_capture s cap s m Hm)
    as (k & Hk & Hall & ->).
  assert (Hlen : (length s - length (drop k s) = k)%nat).
  { rewrite length_drop. lia. }
  rewrite Hlen. exists (take k s). split; [reflexivity|]. split; [|exact Hall].
  intros Hnil. apply (f_equal length) in Hnil.
  rewrite length_take in Hnil. simpl in Hnil. lia.
Qed.

(** The items before the group only choose where the group starts. *)
Lemma matchHere_plus_passes (a : atom) (r : list term) (opened : jsstring)
    (cap : option jsstring) (s : jsstring) (m : option jsstring) :
  matchHere (Plus a :: r) opened cap s = Some m ->
  exists s', matchHere r opened cap s' = Some m.
Proof.
  induction s as [|c s IH]; [discriminate|].
  destruct (accepts a c) eqn:Hc.
  - rewrite (matchHere_plus_cons a r opened cap c s Hc).
    destruct (matchHere (Plus a :: r) opened cap s) as [m'|] eqn:Hs.
    + intros Hm. injection Hm as <-. exact (IH eq_refl).
    + intros Hm. exists s. exact Hm.
  - simpl. rewrite Hc. discriminate.
Qed.

Lemma matchHere_prefix_passes (pre r : list term) (opened : jsstring)
    (cap : option jsstring) (s : jsstring) (m : option jsstring) :
  forallb (fun t => match t with One _ | Plus _ => true | _ => false end) pre
  = true ->
  matchHere (pre ++ r) opened cap s = Some m ->
  exists s', matchHere r opened cap s' = Some m.
Proof.
  revert s. induction pre as [|t pre IH]; intros s Hplain Hm.
  - exists s. exact Hm.
  - simpl in Hplain. apply andb_true_iff in Hplain as [Ht Hplain].
    destruct t as [a|a| |]; try discriminate.
    + destruct s as [|c s]; [discriminate|]. simpl in Hm.
      destruct (accepts a c); [|discriminate]. exact (IH s Hplain Hm).
    + destruct (matchHere_plus_passes a (pre ++ r) opened cap s m Hm)
        as [s' Hs'].
      exact (IH s' Hplain Hs').
Qed.

Lemma jsmatch_somewhere (s : jsstring) (r : list term) (m : option jsstring) :
  jsmatch s r = Some m -> exists s', matchHere r [] None s' = Some m.
Proof.
  induction s as [|c s IH]; simpl.
  - destruct (matchHere r [] None []) eqn:Hm; [|discriminate].
    intros Heq. injection Heq as <-. exists []. exact Hm.
  - destruct (matchHere r [] None (c :: s)) eqn:Hm.
    + intros Heq. injection Heq as <-. exists (c :: s). exact Hm.
    + exact IH.
Qed.

Lemma autoRunPattern_capture (s : jsstring) (m : option jsstring) :
  jsmatch s autoRunPattern = Some m ->
  exists g, m = Some g /\ g <> []
            /\ forallb (fun c => negb (isLineTerminator c)) g = true.
Proof.
  intros Hm. destruct (jsmatch_somewhere s _ m Hm) as [s1 Hs1].
  change autoRunPattern
    with ((chars "AutoRun" ++ [Plus ClassS] ++ chars "REG_SZ" ++ [Plus ClassS])
          ++ [GroupOpen; Plus Dot; GroupClose]) in Hs1.
  apply matchHere_prefix_passes in Hs1 as [s2 Hs2]; [|reflexivity].
  exact (matchHere_group_capture [] None s2 m Hs2).
Qed.

(** ** UTF-8: what encoding and decoding keep *)

Lemma utf8_encode_cons (c : N) (rest : jsstring) :
  utf8_encode (c :: rest)
  = if isHighSurrogate c then
      match rest with
      | low :: rest' =>
          if isLowSurrogate low
          then encodeCodePoint (codePoint c low) ++ utf8_encode rest'
          else replacement ++ utf8_encode rest
      | [] => replacement
      end
    else if isLowSurrogate c then replacement ++ utf8_encode rest
    else encodeCodePoint c ++ utf8_encode rest.
Proof. destruct rest; reflexivity. Qed.

Lemma ascii_encodes_as_itself (c : N) (rest : jsstring) :
  (c <? 0x80) = true ->
  utf8_encode (c :: rest) = c :: utf8_encode rest.
Proof.
  intros Hc. pose proof Hc as Hlt. apply N.ltb_lt in Hlt.
  assert (Hh : isHighSurrogate c = false).
  { unfold isHighSurrogate. apply andb_false_iff. left. apply N.leb_gt. lia. }
  assert (Hl : isLowSurrogate c = false).
  { unfold isLowSurrogate. apply andb_false_iff. left. apply N.leb_gt. lia. }
  cbn [utf8_encode]. rewrite Hh, Hl. unfold encodeCodePoint. rewrite Hc.
  reflexivity.
Qed.

Lemma utf8_encode_ascii (a : jsstring) :
  forallb (fun c => c <? 0x80) a = true -> utf8_encode a = a.
Proof.
  induction a as [|c a IH]; [reflexivity|].
  cbn [forallb]. intros Hall. apply andb_true_iff in Hall as [Hc Hall].
  rewrite (ascii_encodes_as_itself c a Hc), (IH Hall). reflexivity.
Qed.

(** ASCII text added at the end of a string is added as it is at the end
    of its bytes. *)
Lemma utf8_encode_app_ascii (s a : jsstring) :
  forallb (fun c => c <? 0x80) a = true ->
  utf8_encode (s ++ a) = utf8_encode s ++ a.
Proof.
  intros Hall.
  assert (Hlow : match a with [] => True | x :: _ => isLowSurrogate x = false end).
  { destruct a as [|x a]; [exact I|].
    cbn [forallb] in Hall. apply andb_true_iff in Hall as [Hx _].
    apply N.ltb_lt in Hx. unfold isLowSurrogate.
    apply andb_false_iff. left. apply N.leb_gt. lia. }
  assert (Hind : forall n (s : jsstring), (length s <= n)%nat ->
            utf8_encode (s ++ a) = utf8_encode s ++ a).
  { induction n as [|n IH]; intros s0 Hlen.
    - destruct s0; [|simpl in Hlen; lia]. apply (utf8_encode_ascii a Hall).
    - destruct s0 as [|c rest]; [apply (utf8_encode_ascii a Hall)|].
      cbn [length] in Hlen.
      destruct rest as [|low rest'].
      + change ([c] ++ a) with (c :: a). cbn [utf8_encode].
        destruct (isHighSurrogate c).
        * destruct a as [|x a'].
          -- rewrite app_nil_r. reflexivity.
          -- rewrite Hlow, (utf8_encode_ascii (x :: a') Hall). reflexivity.
        * destruct (isLowSurrogate c);
            rewrite (utf8_encode_ascii a Hall), <- app_assoc; reflexivity.
      + change ((c :: low :: rest') ++ a) with (c :: (low :: rest') ++ a).
        rewrite (utf8_encode_cons c ((low :: rest') ++ a)).
        rewrite (utf8_encode_cons c (low :: rest')).
        cbn [length] in Hlen.
        rewrite (IH (low :: rest')) by (cbn [length]; lia).
        change ((low :: rest') ++ a) with (low :: (rest' ++ a)).
        cbv iota. rewrite (IH rest') by lia.
        destruct (isHighSurrogate c); [destruct (isLowSurrogate low)|
                                       destruct (isLowSurrogate c)];
          rewrite <- ?app_assoc; reflexivity. }
  exact (Hind (length s) s (le_n _)).
Qed.

Lemma decodeByte_ascii (d : decoder) (b : N) :
  (b <? 0x80) = true -> exists pre, decodeByte d b = (pre ++ [b], Idle).
Proof.
  intros Hb. assert (Hlead : lead b = ([b], Idle)).
  { unfold lead. rewrite Hb. reflexivity. }
  destruct d as [|bits needed next].
  - exists []. exact Hlead.
  - exists [0xFFFD]. cbn [decodeByte].
    assert (Hlow : (lowerBound next <=? b) = false).
    { apply N.ltb_lt in Hb. apply N.leb_gt. destruct next; simpl; lia. }
    rewrite Hlow, Hlead. reflexivity.
Qed.

Lemma decodeFrom_ascii (a : jsstring) (rest : bytes) :
  forallb (fun c => c <? 0x80) a = true ->
  decodeFrom Idle (a ++ rest) = a ++ decodeFrom Idle rest.
Proof.
  induction a as [|c a IH]; [reflexivity|].
  cbn [forallb]. intros Hall. apply andb_true_iff in Hall as [Hc Hall].
  change ((c :: a) ++ rest) with (c :: (a ++ rest)).
  cbn [decodeFrom decodeByte]. unfold lead. rewrite Hc.
  rewrite (IH Hall). reflexivity.
Qed.

Lemma decodeFrom_app (d : decoder) (input : bytes) :
  exists out d', forall rest,
    decodeFrom d (input ++ rest) = out ++ decodeFrom d' rest.
Proof.
  revert d. induction input as [|b input IH]; intros d.
  - exists [], d. reflexivity.
  - destruct (decodeByte d b) as [out1 d1] eqn:Hstep.
    destruct (IH d1) as (out & d' & Hrest).
    exists (out1 ++ out), d'. intros rest.
    change ((b :: input) ++ rest) with (b :: (input ++ rest)).
    cbn [decodeFrom]. rewrite Hstep, Hrest, app_assoc. reflexivity.
Qed.

(** ASCII bytes come out of the decoder as they are, whatever bytes stand
    around them. *)
Lemma utf8_decode_keeps_ascii (before a after : bytes) :
  forallb (fun c => c <? 0x80) a = true ->
  exists pre post, utf8_decode (before ++ a ++ after) = pre ++ a ++ post.
Proof.
  intros Hall. unfold utf8_decode.
  destruct (decodeFrom_app Idle before) as (out & d & Hout). rewrite Hout.
  destruct a as [|c a].
  - exists (out ++ decodeFrom d ([] ++ after)), []. rewrite app_nil_r.
    reflexivity.
  - cbn [forallb] in Hall. apply andb_true_iff in Hall as [Hc Hall].
    destruct (decodeByte_ascii d c Hc) as [pre Hpre].
    change ((c :: a) ++ after) with (c :: (a ++ after)).
    cbn [decodeFrom]. rewrite Hpre, (decodeFrom_ascii a after Hall).
    exists (out ++ pre), (decodeFrom Idle after).
    rewrite <- !app_assoc. reflexivity.
Qed.

Lemma includes_decoded (before a after : bytes) :
  forallb (fun c => c <? 0x80) a = true ->
  includes (utf8_decode (before ++ a ++ after)) a = true.
Proof.
  intros Hall. apply includes_spec.
  exact (utf8_decode_keeps_ascii before a after Hall).
Qed.

(** Bytes that are well-formed UTF-8 hold text when they are not empty. *)
Lemma wellformed_not_empty (content : bytes) :
  utf8_encode (utf8_decode content) = content -> content <> [] ->
  utf8_decode content <> [].
Proof. intros Hwf Hne Hnil. rewrite Hnil in Hwf. apply Hne. rewrite <- Hwf. reflexivity. Qed.

Arguments utf8_encode : simpl never.
Arguments utf8_decode : simpl never.

(** ** Running the script, one statement at a time *)

Lemma bind_ok {A B : Type} (m : M A) (k : A -> M B) (w w' : World) (a : A) :
  m w = (Ok a, w') -> (m ≫= k) w = k a w'.
Proof. intros Hm. unfold mbind, M_bind. rewrite Hm. reflexivity. Qed.

Lemma bind_throw {A B : Type} (m : M A) (k : A -> M B) (w w' : World)
    (e : exn) :
  m w = (Throw e, w') -> (m ≫= k) w = (Throw e, w').
Proof. intros Hm. unfold mbind, M_bind. rewrite Hm. reflexivity. Qed.

Lemma bind_log {B : Type} (text : jsstring) (k : unit -> M B) (w : World) :
  (console_log text ≫= k) w
  = k tt (mkWorld (fs w) (execd w) (console w ++ [Log text])).
Proof. reflexivity. Qed.

Lemma try_ok {A : Type} (body : M A) (handler : exn -> M A) (w w' : World)
    (a : A) :
  body w = (Ok a, w') -> try_catch body handler w = (Ok a, w').
Proof. intros Hb. unfold try_catch. rewrite Hb. reflexivity. Qed.

Lemma try_throw {A : Type} (body : M A) (handler : exn -> M A) (w w' : World)
    (e : exn) :
  body w = (Throw e, w') -> try_catch body handler w = handler e w'.
Proof. intros Hb. unfold try_catch. rewrite Hb. reflexivity. Qed.

(** ** Control flow: what never ends the process *)

Lemma never_exits_bind {A B : Type} (m : M A) (k : A -> M B) :
  never_exits m -> (forall a, never_exits (k a)) -> never_exits (m ≫= k).
Proof.
  intros Hm Hk w w' code Heq. unfold mbind, M_bind in Heq.
  destruct (m w) as [[a|e|c] w1] eqn:Hmw.
  - exact (Hk a w1 w' code Heq).
  - discriminate.
  - exact (Hm w w1 c Hmw).
Qed.

Lemma never_exits_try {A : Type} (body : M A) (handler : exn -> M A) :
  never_exits body -> (forall e, never_exits (handler e)) ->
  never_exits (try_catch body handler).
Proof.
  intros Hb Hh w w' code Heq. unfold try_catch in Heq.
  destruct (body w) as [[a|e|c] w1] eqn:Hbw.
  - discriminate.
  - exact (Hh e w1 w' code Heq).
  - exact (Hb w w1 c Hbw).
Qed.

Lemma never_exits_ret {A : Type} (a : A) : never_exits (mret a : M A).
Proof. intros w w' code. discriminate. Qed.

Lemma never_exits_log (text : jsstring) : never_exits (console_log text).
Proof. intros w w' code. discriminate. Qed.

Section Properties.
Context `{Host}.

Lemma writeFileSync_ok (w : World) (path data : jsstring) :
  writable (fs w) path data ->
  writeFileSync path data w
  = (Ok tt,
     mkWorld (<[path := File (utf8_encode data)]> (fs w)) (execd w)
             (console w)).
Proof.
  intros [Hio Hdir]. unfold writeFileSync. rewrite Hio.
  destruct (fs w !! path) as [[content|]|]; congruence.
Qed.

(** The init script and the marker block are ASCII: their bytes are their
    code units. *)
Lemma cmdContent_bytes : utf8_encode cmdContent = cmdContent.
Proof. apply utf8_encode_ascii. reflexivity. Qed.

Lemma markerBlock_bytes : utf8_encode (newContent []) = markerBlock.
Proof. apply (utf8_encode_ascii markerBlock). reflexivity. Qed.

Lemma execSync_ok (w : World) (command stdout : jsstring) :
  spawn (execd w) command = inr stdout ->
  execSync command w
  = (Ok stdout, mkWorld (fs w) (execd w ++ [command]) (console w)).
Proof. intros Hs. unfold execSync. rewrite Hs. reflexivity. Qed.

Lemma execSync_throw (w : World) (command msg : jsstring) :
  spawn (execd w) command = inl msg ->
  execSync command w
  = (Throw (Error msg), mkWorld (fs w) (execd w ++ [command]) (console w)).
Proof. intros Hs. unfold execSync. rewrite Hs. reflexivity. Qed.

(** *** [setupCmd] *)

(** [setupCmd] up to the [try] of line 87. *)
Lemma setupCmd_start (w : World) :
  writable (fs w) CMD_INIT_FILE cmdContent ->
  setupCmd w
  = try_catch
      (stdout ← execSync regQuery;
       let currentAutoRun := trim stdout in
       if includes currentAutoRun CMD_INIT_FILE then
         console_log (js "   " ++ warning ++ js "  AutoRun already configured")
       else
         let existingValue := existingValue currentAutoRun in
         _ ← execSync (regAdd (newAutoRun existingValue));
         console_log (js "   " ++ check_mark ++ js " Configured AutoRun in registry"))
      (fun error =>
         console_log (js "   " ++ warning
                      ++ js "  Could not configure AutoRun automatically");;
         console_log (js "   " ++ memo ++ js " Manual setup: Add this to registry:");;
         console_log (js "      HKCU\Software\Microsoft\Command Processor\AutoRun");;
         console_log (js "      Value: " ++ CMD_INIT_FILE))
      (mkWorld (<[CMD_INIT_FILE := File cmdContent]> (fs w)) (execd w)
               (console w ++ cmdHeader)).
Proof.
  intros Hw. unfold setupCmd. rewrite bind_log. cbv beta.
  rewrite (bind_ok _ _ _ _ _ (writeFileSync_ok (mkWorld _ _ _) _ _ Hw)).
  rewrite bind_log. cbn [fs execd console].
  rewrite cmdContent_bytes, <- app_assoc. reflexivity.
Qed.

(** The handler of line 113. *)
Lemma setupCmd_handler (w : World) :
  (console_log (js "   " ++ warning
                ++ js "  Could not configure AutoRun automatically");;
   console_log (js "   " ++ memo ++ js " Manual setup: Add this to registry:");;
   console_log (js "      HKCU\Software\Microsoft\Command Processor\AutoRun");;
   console_log (js "      Value: " ++ CMD_INIT_FILE)) w
  = (Ok tt, mkWorld (fs w) (execd w) (console w ++ manualSetup)).
Proof.
  rewrite !bind_log. unfold console_log. cbn [fs execd console].
  rewrite <- !app_assoc. reflexivity.
Qed.

Lemma setupCmd_when_query_fails (w : World) (msg : jsstring) :
  writable (fs w) CMD_INIT_FILE cmdContent ->
  spawn (execd w) regQuery = inl msg ->
  setupCmd w
  = (Ok tt,
     mkWorld (<[CMD_INIT_FILE := File cmdContent]> (fs w))
             (execd w ++ [regQuery])
             (console w ++ cmdHeader ++ manualSetup)).
Proof.
  intros Hw Hq. rewrite (setupCmd_start w Hw).
  erewrite try_throw.
  2: { apply bind_throw, execSync_throw. exact Hq. }
  rewrite setupCmd_handler. cbn [fs execd console].
  rewrite <- app_assoc. reflexivity.
Qed.

Lemma setupCmd_when_configured (w : World) (stdout : jsstring) :
  writable (fs w) CMD_INIT_FILE cmdContent ->
  spawn (execd w) regQuery = inr stdout ->
  includes (trim stdout) CMD_INIT_FILE = true ->
  setupCmd w
  = (Ok tt,
     mkWorld (<[CMD_INIT_FILE := File cmdContent]> (fs w))
             (execd w ++ [regQuery])
             (console w ++ cmdHeader ++ [autoRunKept])).
Proof.
  intros Hw Hq Hin. rewrite (setupCmd_start w Hw).
  erewrite try_ok; [reflexivity|].
  erewrite bind_ok by (apply execSync_ok; exact Hq).
  cbv zeta. rewrite Hin. unfold console_log. cbn [fs execd console].
  rewrite <- app_assoc. reflexivity.
Qed.

Lemma setupCmd_when_add_succeeds (w : World) (stdout ack : jsstring) :
  writable (fs w) CMD_INIT_FILE cmdContent ->
  spawn (execd w) regQuery = inr stdout ->
  includes (trim stdout) CMD_INIT_FILE = false ->
  spawn (execd w ++ [regQuery])
        (regAdd (newAutoRun (existingValue (trim stdout)))) = inr ack ->
  setupCmd w
  = (Ok tt,
     mkWorld (<[CMD_INIT_FILE := File cmdContent]> (fs w))
             (execd w ++ [regQuery;
                          regAdd (newAutoRun (existingValue (trim stdout)))])
             (console w ++ cmdHeader ++ [autoRunConfigured])).
Proof.
  intros Hw Hq Hin Hadd. rewrite (setupCmd_start w Hw).
  erewrite try_ok; [reflexivity|].
  erewrite bind_ok by (apply execSync_ok; exact Hq).
  cbv zeta. rewrite Hin.
  erewrite bind_ok by (apply execSync_ok; exact Hadd).
  unfold console_log. cbn [fs execd console].
  rewrite <- !app_assoc. reflexivity.
Qed.

Lemma setupCmd_when_add_fails (w : World) (stdout msg : jsstring) :
  writable (fs w) CMD_INIT_FILE cmdContent ->
  spawn (execd w) regQuery = inr stdout ->
  includes (trim stdout) CMD_INIT_FILE = false ->
  spawn (execd w ++ [regQuery])
        (regAdd (newAutoRun (existingValue (trim stdout)))) = inl msg ->
  setupCmd w
  = (Ok tt,
     mkWorld (<[CMD_INIT_FILE := File cmdContent]> (fs w))
             (execd w ++ [regQuery;
                          regAdd (newAutoRun (existingValue (trim stdout)))])
             (console w ++ cmdHeader ++ manualSetup)).
Proof.
  intros Hw Hq Hin Hadd. rewrite (setupCmd_start w Hw).
  erewrite try_throw.
  2: { erewrite bind_ok by (apply execSync_ok; exact Hq).
       cbv zeta. rewrite Hin.
       apply bind_throw, execSync_throw. exact Hadd. }
  rewrite setupCmd_handler. cbn [fs execd console].
  rewrite <- !app_assoc. reflexivity.
Qed.

(** Whatever the registry answers, [setupCmd] returns, and the one file it
    touches is the init script. *)
Lemma setupCmd_returns (w : World) :
  writable (fs w) CMD_INIT_FILE cmdContent ->
  exists w', setupCmd w = (Ok tt, w')
             /\ fs w' = <[CMD_INIT_FILE := File cmdContent]> (fs w).
Proof.
  intros Hw.
  destruct (spawn (execd w) regQuery) as [msg|stdout] eqn:Hq.
  { eexists. split; [apply (setupCmd_when_query_fails w msg Hw Hq)|reflexivity]. }
  destruct (includes (trim stdout) CMD_INIT_FILE) eqn:Hin.
  { eexists. split; [apply (setupCmd_when_configured w stdout Hw Hq Hin)|reflexivity]. }
  destruct (spawn (execd w ++ [regQuery])
              (regAdd (newAutoRun (existingValue (trim stdout)))))
    as [msg|ack] eqn:Hadd.
  - eexists. split; [apply (setupCmd_when_add_fails w stdout msg Hw Hq Hin Hadd)|reflexivity].
  - eexists. split; [apply (setupCmd_when_add_succeeds w stdout ack Hw Hq Hin Hadd)|reflexivity].
Qed.




Lemma regAdd_not_regQuery (value : jsstring) : regAdd value <> regQuery.
Proof. unfold regAdd, regQuery. vm_compute. discriminate. Qed.

(** *** Claims on [setupCmd] *)

(** C1 (the code departs from the claim): when [reg query] fails, the
    exception of [execSync] leaves the [try] of line 87 at once.  The
    handler prints the manual instructions; the query is the only command
    the script has run, so no AutoRun value is composed and no [reg add] is
    issued. *)
Theorem query_failure_skips_the_write (w : World) (msg : jsstring) :
  writable (fs w) CMD_INIT_FILE cmdContent ->
  spawn (execd w) regQuery = inl msg ->
  setupCmd w
  = (Ok tt,
     mkWorld (<[CMD_INIT_FILE := File cmdContent]> (fs w))
             (execd w ++ [regQuery])
             (console w ++ cmdHeader ++ manualSetup))
  /\ forall value, regAdd value ∈ execd (setupCmd w).2 ->
                   regAdd value ∈ execd w.
Proof.
  intros Hw Hq. rewrite (setupCmd_when_query_fails w msg Hw Hq).
  split; [reflexivity|]. cbn [snd execd]. intros value Hel.
  apply elem_of_app in Hel as [Hel|Hel]; [exact Hel|].
  apply list_elem_of_singleton in Hel.
  destruct (regAdd_not_regQuery value Hel).
Qed.


(** C4: when the output of the query contains the path of the init script,
    [setupCmd] reports that AutoRun is already configured, and the query is
    the only command it runs: no [reg add] is issued. *)
Theorem configured_autorun_untouched (w : World) (stdout : jsstring) :
  writable (fs w) CMD_INIT_FILE cmdContent ->
  spawn (execd w) regQuery = inr stdout ->
  includes (trim stdout) CMD_INIT_FILE = true ->
  setupCmd w
  = (Ok tt,
     mkWorld (<[CMD_INIT_FILE := File cmdContent]> (fs w))
             (execd w ++ [regQuery])
             (console w ++ cmdHeader ++ [autoRunKept]))
  /\ forall value, regAdd value ∈ execd (setupCmd w).2 ->
                   regAdd value ∈ execd w.
Proof.
  intros Hw Hq Hin.
  rewrite (setupCmd_when_configured w stdout Hw Hq Hin).
  split; [reflexivity|]. cbn [snd execd]. intros value Hel.
  apply elem_of_app in Hel as [Hel|Hel]; [exact Hel|].
  apply list_elem_of_singleton in Hel.
  destruct (regAdd_not_regQuery value Hel).
Qed.

(** C10: when the output of the query neither contains the path of the init
    script nor matches [AutoRun\s+REG_SZ\s+(.+)], the extracted value is
    empty and [reg add] is given the path of the init script alone; when
    [reg add] succeeds the script reports the configuration as done. *)
Theorem unmatched_autorun_discarded (w : World) (stdout : jsstring) :
  writable (fs w) CMD_INIT_FILE cmdContent ->
  spawn (execd w) regQuery = inr stdout ->
  includes (trim stdout) CMD_INIT_FILE = false ->
  jsmatch (trim stdout) autoRunPattern = None ->
  existingValue (trim stdout) = []
  /\ execd (setupCmd w).2 = execd w ++ [regQuery; regAdd CMD_INIT_FILE]
  /\ forall ack,
       spawn (execd w ++ [regQuery]) (regAdd CMD_INIT_FILE) = inr ack ->
       console (setupCmd w).2 = console w ++ cmdHeader ++ [autoRunConfigured].
Proof.
  intros Hw Hq Hin Hno.
  assert (He : existingValue (trim stdout) = []).
  { unfold existingValue. rewrite Hno. reflexivity. }
  assert (Hnew : newAutoRun (existingValue (trim stdout)) = CMD_INIT_FILE).
  { rewrite He. reflexivity. }
  split; [exact He|]. split.
  - destruct (spawn (execd w ++ [regQuery]) (regAdd CMD_INIT_FILE))
      as [msg|ack] eqn:Hadd.
    + rewrite <- Hnew in Hadd.
      rewrite (setupCmd_when_add_fails w stdout msg Hw Hq Hin Hadd), Hnew.
      reflexivity.
    + rewrite <- Hnew in Hadd.
      rewrite (setupCmd_when_add_succeeds w stdout ack Hw Hq Hin Hadd), Hnew.
      reflexivity.
  - intros ack Hadd. rewrite <- Hnew in Hadd.
    rewrite (setupCmd_when_add_succeeds w stdout ack Hw Hq Hin Hadd).
    reflexivity.
Qed.

(** C9: [setupCmd] writes the init script before anything else and never
    looks at what the file held: after one call or more, the file holds
    exactly [cmdContent], whatever it held before. *)
Theorem init_script_always_template (w : World) (n : nat) :
  (forall files, io_fault files (OpWrite CMD_INIT_FILE cmdContent) = None) ->
  fs w !! CMD_INIT_FILE <> Some Dir ->
  fs (repeatSetupCmd (S n) w) !! CMD_INIT_FILE = Some (File cmdContent).
Proof.
  intros Hio Hdir.
  assert (Hstep : forall w0, fs w0 !! CMD_INIT_FILE <> Some Dir ->
            fs (setupCmd w0).2 !! CMD_INIT_FILE = Some (File cmdContent)).
  { intros w0 Hw0.
    destruct (setupCmd_returns w0) as (w' & Hrun & Hfs).
    - split; [apply Hio|exact Hw0].
    - rewrite Hrun. cbn [snd]. rewrite Hfs. apply lookup_insert_eq. }
  induction n as [|n IH].
  - apply Hstep, Hdir.
  - unfold repeatSetupCmd in *. rewrite Nat.iter_succ.
    apply Hstep. rewrite IH. discriminate.
Qed.

(** *** [setupPowerShell] *)

Lemma makeDir_other (path other : jsstring) (files : gmap (list N) node) :
  other <> path -> makeDir path files !! other = files !! other.
Proof.
  intros Hne. unfold makeDir. destruct (files !! path); [reflexivity|].
  apply lookup_insert_ne. congruence.
Qed.

(** Making directories changes no path outside the list. *)
Lemma makeDirs_other (paths : list jsstring) (other : jsstring)
    (files : gmap (list N) node) :
  other ∉ paths -> foldr makeDir files paths !! other = files !! other.
Proof.
  induction paths as [|path paths IH]; [reflexivity|].
  intros Hnot. apply not_elem_of_cons in Hnot as [Hne Hnot].
  cbn [foldr]. rewrite (makeDir_other path other _ Hne). exact (IH Hnot).
Qed.

Lemma makeDir_keeps (path other : jsstring) (files : gmap (list N) node)
    (x : node) :
  files !! other = Some x -> makeDir path files !! other = Some x.
Proof.
  intros Hx. unfold makeDir. destruct (files !! path) eqn:Hp; [exact Hx|].
  rewrite lookup_insert_ne; [exact Hx|]. congruence.
Qed.

(** Making directories changes nothing that exists. *)
Lemma makeDirs_keeps (paths : list jsstring) (other : jsstring)
    (files : gmap (list N) node) (x : node) :
  files !! other = Some x -> foldr makeDir files paths !! other = Some x.
Proof.
  intros Hx. induction paths as [|path paths IH]; [exact Hx|].
  cbn [foldr]. apply makeDir_keeps, IH.
Qed.

Lemma makeDir_at (path : jsstring) (files : gmap (list N) node) :
  makeDir path files !! path
  = match files !! path with Some x => Some x | None => Some Dir end.
Proof.
  unfold makeDir. destruct (files !! path) as [x|] eqn:Hx; [exact Hx|].
  apply lookup_insert_eq.
Qed.

(** What is at a path once the directories of a list are made. *)
Lemma makeDirs_lookup (paths : list jsstring) (path : jsstring)
    (files : gmap (list N) node) :
  foldr makeDir files paths !! path
  = match files !! path with
    | Some x => Some x
    | None => if bool_decide (path ∈ paths) then Some Dir else None
    end.
Proof.
  induction paths as [|first paths IH].
  - cbn [foldr]. destruct (files !! path); [reflexivity|].
    rewrite bool_decide_eq_false_2 by apply not_elem_of_nil. reflexivity.
  - cbn [foldr]. destruct (decide (path = first)) as [->|Hne].
    + rewrite (bool_decide_eq_true_2 (first ∈ first :: paths))
        by (apply elem_of_cons; left; reflexivity).
      rewrite makeDir_at, IH.
      destruct (files !! first); [reflexivity|].
      destruct (bool_decide (first ∈ paths)); reflexivity.
    + rewrite (makeDir_other first path _ Hne), IH.
      destruct (files !! path); [reflexivity|].
      apply (f_equal (fun b : bool => if b then Some Dir else None)).
      apply bool_decide_ext. rewrite elem_of_cons. tauto.
Qed.

(** Every directory above a path has a shorter name than the path. *)
Lemma ancestorsFrom_shorter (before rest above : jsstring) :
  above ∈ ancestorsFrom before rest ->
  (length above < length before + length rest)%nat.
Proof.
  revert before. induction rest as [|c rest IH]; intros before Hin.
  - apply elem_of_nil in Hin. destruct Hin.
  - cbn [ancestorsFrom] in Hin. apply elem_of_app in Hin as [Hin|Hin].
    + destruct ((c =? 0x5C) && truthy before).
      * apply list_elem_of_singleton in Hin as ->. cbn [length]. lia.
      * apply elem_of_nil in Hin. destruct Hin.
    + apply IH in Hin. rewrite length_app in Hin. cbn [length] in *. lia.
Qed.

Lemma not_elem_of_ancestors (path : jsstring) : path ∉ ancestors path.
Proof.
  intros Hin. apply ancestorsFrom_shorter in Hin. cbn [length] in Hin. lia.
Qed.

Lemma bind_existsSync {B : Type} (path : jsstring) (k : bool -> M B)
    (w : World) :
  (existsSync path ≫= k) w = k (bool_decide (is_Some (fs w !! path))) w.
Proof. reflexivity. Qed.

Lemma profilePath_run (w : World) :
  profilePath w
  = (Ok (if negb (bool_decide (is_Some (fs w !! POWERSHELL_PROFILE_5)))
            && bool_decide (is_Some (fs w !! POWERSHELL_PROFILE_6))
         then POWERSHELL_PROFILE_6 else POWERSHELL_PROFILE_5), w).
Proof.
  unfold profilePath. rewrite bind_existsSync.
  destruct (bool_decide (is_Some (fs w !! POWERSHELL_PROFILE_5))); cbn [negb andb].
  - reflexivity.
  - rewrite bind_existsSync. reflexivity.
Qed.

(** The choice of the profile depends on the file system alone. *)
Lemma profilePath_frame (w w' : World) (path : jsstring) :
  profilePath w = (Ok path, w) -> fs w' = fs w ->
  profilePath w' = (Ok path, w').
Proof.
  intros Hp Hfs. rewrite profilePath_run in Hp. rewrite profilePath_run, Hfs.
  congruence.
Qed.

Lemma readFileSync_ok (w : World) (path : jsstring) (content : bytes) :
  io_fault (fs w) (OpRead path) = None ->
  fs w !! path = Some (File content) ->
  readFileSync path w = (Ok (utf8_decode content), w).
Proof. intros Hio Hf. unfold readFileSync. rewrite Hio, Hf. reflexivity. Qed.

Lemma setupPowerShell_when_configured (w : World) (path : jsstring)
    (content : bytes) :
  profilePath w = (Ok path, w) ->
  fs w !! path = Some (File content) ->
  io_fault (fs w) (OpRead path) = None ->
  includes (utf8_decode content) (js "fnm env") = true ->
  setupPowerShell w
  = (Ok tt, mkWorld (fs w) (execd w)
              (console w ++ profileHeader :: profileKept path)).
Proof.
  intros Hp Hf Hio Hin. unfold setupPowerShell. rewrite bind_log. cbv beta.
  erewrite bind_ok by (apply (profilePath_frame w); [exact Hp|reflexivity]).
  rewrite bind_existsSync. cbn [fs]. rewrite Hf.
  rewrite bool_decide_eq_true_2 by eauto.
  erewrite bind_ok.
  2: { erewrite bind_ok by (apply readFileSync_ok; [exact Hio|exact Hf]).
       rewrite Hin. rewrite !bind_log. reflexivity. }
  cbn [fs execd console]. rewrite <- !app_assoc. reflexivity.
Qed.

Lemma setupPowerShell_when_unmarked (w : World) (path : jsstring)
    (content : bytes) :
  profilePath w = (Ok path, w) ->
  fs w !! path = Some (File content) ->
  io_fault (fs w) (OpRead path) = None ->
  includes (utf8_decode content) (js "fnm env") = false ->
  writable (fs w) path (newContent (utf8_decode content)) ->
  setupPowerShell w
  = (Ok tt,
     mkWorld (<[path := File (utf8_encode (newContent (utf8_decode content)))]>
                (fs w))
             (execd w)
             (console w ++ profileHeader :: profileConfigured path)).
Proof.
  intros Hp Hf Hio Hin Hw. unfold setupPowerShell. rewrite bind_log. cbv beta.
  erewrite bind_ok by (apply (profilePath_frame w); [exact Hp|reflexivity]).
  rewrite bind_existsSync. cbn [fs]. rewrite Hf.
  rewrite bool_decide_eq_true_2 by eauto.
  erewrite bind_ok.
  2: { erewrite bind_ok by (apply readFileSync_ok; [exact Hio|exact Hf]).
       rewrite Hin. reflexivity. }
  cbv iota beta.
  rewrite (bind_ok _ _ _ _ _ (writeFileSync_ok (mkWorld _ _ _) _ _ Hw)).
  rewrite !bind_log. unfold console_log.
  cbn [fs execd console]. rewrite <- !app_assoc. reflexivity.
Qed.

(** No file at the resolved path: the directory is made when it is missing,
    with the directories above it, and the marker block is written alone. *)
Lemma setupPowerShell_when_absent (w : World) (path : jsstring) :
  profilePath w = (Ok path, w) ->
  fs w !! path = None ->
  let profileDir := join [path; js ".."] in
  let files := if bool_decide (is_Some (fs w !! profileDir)) then fs w
               else foldr makeDir (fs w) (profileDir :: ancestors profileDir) in
  io_fault (fs w) (OpMkdir profileDir) = None ->
  writable files path (newContent []) ->
  setupPowerShell w
  = (Ok tt, mkWorld (<[path := File markerBlock]> files) (execd w)
              (console w ++ profileHeader :: profileConfigured path)).
Proof.
  intros Hp Hf profileDir files Hmk Hw. unfold setupPowerShell.
  rewrite bind_log. cbv beta.
  erewrite bind_ok by (apply (profilePath_frame w); [exact Hp|reflexivity]).
  rewrite bind_existsSync. cbn [fs]. rewrite Hf.
  rewrite bool_decide_eq_false_2 by (intros [x Hx]; discriminate).
  erewrite (bind_ok _ _ _ (mkWorld files (execd w) _) (Some [])).
  2: { rewrite bind_existsSync. cbn [fs]. fold profileDir. subst files.
       destruct (bool_decide (is_Some (fs w !! profileDir))) eqn:Hd;
         cbn [negb].
       - reflexivity.
       - unfold mbind at 1, M_bind at 1, mkdirSync. cbn [fs execd console].
         rewrite Hmk.
         apply bool_decide_eq_false_1 in Hd.
         destruct (fs w !! profileDir) as [[c|]|] eqn:Hl;
           try (exfalso; apply Hd; eauto; fail).
         reflexivity. }
  cbv iota beta.
  rewrite (bind_ok _ _ _ _ _ (writeFileSync_ok (mkWorld _ _ _) _ _ Hw)).
  rewrite !bind_log. unfold console_log.
  cbn [fs execd console]. rewrite markerBlock_bytes, <- !app_assoc.
  reflexivity.
Qed.

(** Writing the profile does not change which profile is chosen. *)
Lemma profilePath_stable (w w1 : World) (path : jsstring) (content : bytes)
    (files : gmap (list N) node) :
  profilePath w = (Ok path, w) ->
  fs w1 = <[path := File content]> files ->
  (is_Some (fs w !! path) -> files = fs w) ->
  profilePath w1 = (Ok path, w1).
Proof.
  intros Hp Hfs Hsame. rewrite profilePath_run in Hp. rewrite profilePath_run.
  destruct (bool_decide (is_Some (fs w !! POWERSHELL_PROFILE_5))) eqn:H5;
    cbn [negb andb] in Hp.
  - injection Hp as <-. rewrite Hfs, lookup_insert_eq.
    rewrite bool_decide_eq_true_2 by eauto. reflexivity.
  - apply bool_decide_eq_false_1 in H5.
    destruct (bool_decide (is_Some (fs w !! POWERSHELL_PROFILE_6))) eqn:H6.
    + injection Hp as <-. apply bool_decide_eq_true_1 in H6.
      rewrite Hfs, (Hsame H6), lookup_insert_eq.
      rewrite lookup_insert_ne by (intros Heq; apply H5; rewrite <- Heq; exact H6).
      rewrite (bool_decide_eq_false_2 _ H5).
      rewrite bool_decide_eq_true_2 by eauto. reflexivity.
    + injection Hp as <-. rewrite Hfs, lookup_insert_eq.
      rewrite bool_decide_eq_true_2 by eauto. reflexivity.
Qed.

(** What is written always holds the marker, as the next read sees it. *)
Lemma newContent_marked_on_disk (profileContent : jsstring) :
  includes (utf8_decode (utf8_encode (newContent profileContent)))
    (js "fnm env") = true.
Proof.
  assert (Hsplit : exists head,
            newContent profileContent
            = head ++ js "fnm env"
              ++ js " --use-on-cd --corepack-enabled --shell powershell | Out-String | Invoke-Expression"
              ++ nl).
  { unfold newContent. destruct (truthy profileContent).
    - exists (profileContent ++ nl ++ nl ++ js "# fnm (Fast Node Manager)" ++ nl).
      rewrite <- !app_assoc. reflexivity.
    - exists (js "# fnm (Fast Node Manager)" ++ nl). reflexivity. }
  destruct Hsplit as [head ->].
  rewrite utf8_encode_app_ascii by reflexivity.
  apply includes_decoded. reflexivity.
Qed.

(** The steps of [setupPowerShell] up to the test of line 45. *)
Lemma setupPowerShell_start (w : World) (path : jsstring) :
  profilePath w = (Ok path, w) ->
  setupPowerShell w
  = (present ← existsSync path;
     pending ←
       (if present : bool then
          profileContent ← readFileSync path;
          if includes profileContent (js "fnm env") then
            console_log (js "   " ++ warning
                         ++ js "  PowerShell profile already contains fnm configuration");;
            console_log (js "   " ++ page ++ js " Profile location: " ++ path);;
            mret None
          else mret (Some profileContent)
        else
          let profileDir := join [path; js ".."] in
          dirPresent ← existsSync profileDir;
          (if negb dirPresent then mkdirSync profileDir else mret tt);;
          mret (Some []));
     match pending with
     | None => mret tt
     | Some profileContent =>
         writeFileSync path (newContent profileContent);;
         console_log (js "   " ++ check_mark ++ js " PowerShell profile configured");;
         console_log (js "   " ++ page ++ js " Profile location: " ++ path)
     end)
      (mkWorld (fs w) (execd w) (console w ++ [profileHeader])).
Proof.
  intros Hp. unfold setupPowerShell. rewrite bind_log. cbv beta.
  erewrite bind_ok by (apply (profilePath_frame w); [exact Hp|reflexivity]).
  reflexivity.
Qed.

(** A call that returns leaves a profile that holds the marker. *)
Lemma setupPowerShell_marks (w w1 : World) :
  setupPowerShell w = (Ok tt, w1) ->
  exists path content,
    profilePath w1 = (Ok path, w1)
    /\ fs w1 !! path = Some (File content)
    /\ includes (utf8_decode content) (js "fnm env") = true.
Proof.
  intros Hrun.
  assert (Hp : exists path, profilePath w = (Ok path, w))
    by (eexists; apply profilePath_run).
  destruct Hp as [path Hp].
  destruct (fs w !! path) as [[content|]|] eqn:Hf.
  - destruct (io_fault (fs w) (OpRead path)) as [msg|] eqn:Hio.
    { exfalso. rewrite (setupPowerShell_start w path Hp) in Hrun.
      rewrite bind_existsSync in Hrun. cbn [fs] in Hrun. rewrite Hf in Hrun.
      rewrite bool_decide_eq_true_2 in Hrun by eauto.
      unfold mbind, M_bind, readFileSync in Hrun. cbn [fs] in Hrun.
      rewrite Hio in Hrun. discriminate. }
    destruct (includes (utf8_decode content) (js "fnm env")) eqn:Hin.
    { rewrite (setupPowerShell_when_configured w path content Hp Hf Hio Hin)
        in Hrun.
      injection Hrun as <-. exists path, content. split; [|split].
      - apply (profilePath_frame w); [exact Hp|reflexivity].
      - exact Hf.
      - exact Hin. }
    destruct (io_fault (fs w) (OpWrite path (newContent (utf8_decode content))))
      as [msg|] eqn:Hwr.
    { exfalso. rewrite (setupPowerShell_start w path Hp) in Hrun.
      rewrite bind_existsSync in Hrun. cbn [fs] in Hrun. rewrite Hf in Hrun.
      rewrite bool_decide_eq_true_2 in Hrun by eauto.
      unfold mbind, M_bind, readFileSync, writeFileSync, mret, M_ret in Hrun.
      cbn [fs] in Hrun. rewrite Hio, Hf, Hin in Hrun.
      cbn [fs execd console] in Hrun.
      rewrite Hwr in Hrun. discriminate. }
    rewrite (setupPowerShell_when_unmarked w path content Hp Hf Hio Hin)
      in Hrun by (split; [exact Hwr|congruence]).
    injection Hrun as <-. eexists path, _. split; [|split].
    + eapply (profilePath_stable w _ path _ (fs w) Hp);
        [reflexivity|reflexivity].
    + apply lookup_insert_eq.
    + apply newContent_marked_on_disk.
  - exfalso. rewrite (setupPowerShell_start w path Hp) in Hrun.
    rewrite bind_existsSync in Hrun. cbn [fs] in Hrun. rewrite Hf in Hrun.
    rewrite bool_decide_eq_true_2 in Hrun by eauto.
    unfold mbind, M_bind, readFileSync in Hrun. cbn [fs] in Hrun.
    rewrite Hf in Hrun.
    destruct (io_fault (fs w) (OpRead path)); discriminate.
  - rewrite (setupPowerShell_start w path Hp) in Hrun.
    rewrite bind_existsSync in Hrun. cbn [fs] in Hrun. rewrite Hf in Hrun.
    rewrite bool_decide_eq_false_2 in Hrun by (intros [x Hx]; discriminate).
    unfold mbind, M_bind, existsSync, mkdirSync, writeFileSync, mret, M_ret,
      console_log in Hrun.
    cbn [fs execd console negb] in Hrun.
    assert (Hdone : exists files,
              fs w1 = <[path := File (utf8_encode (newContent []))]> files).
    { repeat (case_match; cbn [fs execd console negb] in *; simplify_eq);
        cbn [fs]; eexists; reflexivity. }
    destruct Hdone as [files Hfs].
    eexists path, _. split; [|split].
    + eapply (profilePath_stable w w1 path _ files Hp Hfs).
      rewrite Hf. intros [x Hx]. discriminate.
    + rewrite Hfs. apply lookup_insert_eq.
    + apply newContent_marked_on_disk.
Qed.

(** With the marker in place a call leaves the file system as it is, even
    when the host refuses the read. *)
Lemma setupPowerShell_marked_fs (w : World) (path : jsstring)
    (content : bytes) :
  profilePath w = (Ok path, w) ->
  fs w !! path = Some (File content) ->
  includes (utf8_decode content) (js "fnm env") = true ->
  fs (setupPowerShell w).2 = fs w.
Proof.
  intros Hp Hf Hin.
  destruct (io_fault (fs w) (OpRead path)) as [msg|] eqn:Hio.
  - unfold setupPowerShell. rewrite bind_log. cbv beta.
    erewrite bind_ok by (apply (profilePath_frame w); [exact Hp|reflexivity]).
    rewrite bind_existsSync. cbn [fs]. rewrite Hf.
    rewrite bool_decide_eq_true_2 by eauto.
    unfold mbind, M_bind, readFileSync. cbn [fs]. rewrite Hio. reflexivity.
  - rewrite (setupPowerShell_when_configured w path content Hp Hf Hio Hin).
    reflexivity.
Qed.

(** *** Claims on [setupPowerShell] *)

(** C5: a second call of [setupPowerShell], right after one that returned,
    finds the marker in the profile: it leaves every file as it is and,
    when the host lets it read the profile, prints the already-configured
    notice and the location of the profile, and nothing else. *)
Theorem setupPowerShell_idempotent (w w1 : World) :
  setupPowerShell w = (Ok tt, w1) ->
  fs (setupPowerShell w1).2 = fs w1
  /\ ((forall path, io_fault (fs w1) (OpRead path) = None) ->
      exists path,
        setupPowerShell w1
        = (Ok tt, mkWorld (fs w1) (execd w1)
                    (console w1 ++ profileHeader :: profileKept path))).
Proof.
  intros Hrun.
  destruct (setupPowerShell_marks w w1 Hrun) as (path & content & Hp & Hf & Hin).
  split.
  - exact (setupPowerShell_marked_fs w1 path content Hp Hf Hin).
  - intros Hio. exists path.
    exact (setupPowerShell_when_configured w1 path content Hp Hf (Hio path) Hin).
Qed.

(** C6: the profile is the WindowsPowerShell one when it exists; the
    PowerShell one when the first is absent and the second exists; and the
    WindowsPowerShell one again when neither exists. *)
Theorem profilePath_precedence (w : World) :
  (is_Some (fs w !! POWERSHELL_PROFILE_5) ->
   profilePath w = (Ok POWERSHELL_PROFILE_5, w))
  /\ (fs w !! POWERSHELL_PROFILE_5 = None ->
      is_Some (fs w !! POWERSHELL_PROFILE_6) ->
      profilePath w = (Ok POWERSHELL_PROFILE_6, w))
  /\ (fs w !! POWERSHELL_PROFILE_5 = None ->
      fs w !! POWERSHELL_PROFILE_6 = None ->
      profilePath w = (Ok POWERSHELL_PROFILE_5, w)).
Proof.
  rewrite profilePath_run. repeat split.
  - intros H5. rewrite (bool_decide_eq_true_2 _ H5). reflexivity.
  - intros H5 H6. rewrite H5, (bool_decide_eq_true_2 _ H6).
    rewrite bool_decide_eq_false_2 by (intros [x Hx]; discriminate).
    reflexivity.
  - intros H5 H6. rewrite H5, H6.
    rewrite bool_decide_eq_false_2 by (intros [x Hx]; discriminate).
    reflexivity.
Qed.


(** C8, as corrected: a profile whose bytes are well-formed UTF-8 (decoding
    and encoding them gives them back), not empty and without the marker,
    keeps them: the new bytes are the old ones, a blank line and the marker
    block, so the old content is a prefix of the new one; no other file
    changes. *)
Theorem wellformed_profile_content_preserved (w : World) (path : jsstring)
    (content : bytes) :
  profilePath w = (Ok path, w) ->
  fs w !! path = Some (File content) ->
  content <> [] ->
  utf8_encode (utf8_decode content) = content ->
  includes (utf8_decode content) (js "fnm env") = false ->
  permissive ->
  setupPowerShell w
  = (Ok tt,
     mkWorld (<[path := File (content ++ nl ++ nl ++ markerBlock)]> (fs w))
             (execd w)
             (console w ++ profileHeader :: profileConfigured path))
  /\ content `prefix_of` content ++ nl ++ nl ++ markerBlock.
Proof.
  intros Hp Hf Hne Hwf Hin Hio.
  assert (Hnew : utf8_encode (newContent (utf8_decode content))
                 = content ++ nl ++ nl ++ markerBlock).
  { pose proof (wellformed_not_empty content Hwf Hne) as Htext.
    assert (Happend : newContent (utf8_decode content)
                      = utf8_decode content ++ nl ++ nl ++ markerBlock).
    { destruct (utf8_decode content); [congruence|reflexivity]. }
    rewrite Happend, utf8_encode_app_ascii by reflexivity.
    rewrite Hwf. reflexivity. }
  split.
  - rewrite <- Hnew.
    apply (setupPowerShell_when_unmarked w path content Hp Hf (Hio _ _) Hin).
    split; [apply Hio|]. rewrite Hf. discriminate.
  - apply prefix_app_r. reflexivity.
Qed.

(** *** The whole script *)

(** C2: when [reg add] fails, the handler of line 113 prints the warning
    with the registry key and the value to set, [setupCmd] returns, [main]
    goes on to print the completion summary, and the process ends with
    status 0. *)
Theorem registry_write_failure_is_recoverable (w0 w1 : World)
    (version stdout msg : jsstring) :
  spawn (execd w0) (js "fnm --version") = inr version ->
  setupPowerShell (preflightPassed w0) = (Ok tt, w1) ->
  writable (fs w1) CMD_INIT_FILE cmdContent ->
  spawn (execd w1) regQuery = inr stdout ->
  includes (trim stdout) CMD_INIT_FILE = false ->
  spawn (execd w1 ++ [regQuery])
        (regAdd (newAutoRun (existingValue (trim stdout)))) = inl msg ->
  run w0
  = (0%Z,
     mkWorld (<[CMD_INIT_FILE := File cmdContent]> (fs w1))
             (execd w1 ++ [regQuery;
                           regAdd (newAutoRun (existingValue (trim stdout)))])
             (console w1 ++ cmdHeader ++ manualSetup ++ completion)).
Proof.
  intros Hfnm Hps Hw Hq Hin Hadd. unfold run, script.
  rewrite bind_log. cbv beta.
  erewrite (bind_ok preflight _ _ (preflightPassed w0) tt).
  2: { unfold preflight. apply try_ok.
       erewrite bind_ok by (apply execSync_ok; exact Hfnm).
       unfold console_log, preflightPassed. cbn [fs execd console].
       rewrite <- app_assoc. reflexivity. }
  unfold main. erewrite try_ok; [reflexivity|].
  rewrite (bind_ok _ _ _ _ _ Hps).
  rewrite (bind_ok _ _ _ _ _
             (setupCmd_when_add_fails w1 stdout msg Hw Hq Hin Hadd)).
  rewrite !bind_log. unfold console_log. cbn [fs execd console].
  rewrite <- !app_assoc. reflexivity.
Qed.

Lemma never_exits_execSync (command : jsstring) :
  never_exits (execSync command).
Proof.
  intros w w' code. unfold execSync.
  destruct (spawn (execd w) command); discriminate.
Qed.

Lemma never_exits_existsSync (path : jsstring) : never_exits (existsSync path).
Proof. intros w w' code. discriminate. Qed.

Lemma never_exits_readFileSync (path : jsstring) :
  never_exits (readFileSync path).
Proof.
  intros w w' code. unfold readFileSync.
  destruct (io_fault (fs w) (OpRead path)); [discriminate|].
  destruct (fs w !! path) as [[c|]|]; discriminate.
Qed.

Lemma never_exits_mkdirSync (path : jsstring) : never_exits (mkdirSync path).
Proof.
  intros w w' code. unfold mkdirSync.
  destruct (io_fault (fs w) (OpMkdir path)); [discriminate|].
  destruct (fs w !! path) as [[c|]|]; discriminate.
Qed.

Lemma never_exits_writeFileSync (path data : jsstring) :
  never_exits (writeFileSync path data).
Proof.
  intros w w' code. unfold writeFileSync.
  destruct (io_fault (fs w) (OpWrite path data)); [discriminate|].
  destruct (fs w !! path) as [[c|]|]; discriminate.
Qed.

Ltac never_exits_step :=
  first
    [ apply never_exits_log
    | apply never_exits_ret
    | apply never_exits_execSync
    | apply never_exits_existsSync
    | apply never_exits_readFileSync
    | apply never_exits_mkdirSync
    | apply never_exits_writeFileSync
    | apply never_exits_bind; [|intros ?]
    | apply never_exits_try; [|intros ?]
    | match goal with
      | |- never_exits (if ?b then _ else _) => destruct b
      | |- never_exits (match ?x with Some _ => _ | None => _ end) =>
          destruct x
      end ].

Lemma setupPowerShell_never_exits : never_exits setupPowerShell.
Proof. unfold setupPowerShell, profilePath. repeat never_exits_step. Qed.

Lemma setupCmd_never_exits : never_exits setupCmd.
Proof. unfold setupCmd. cbv zeta. repeat never_exits_step. Qed.

(** ** More on [setupCmd] *)

(** X10: the value taken from the output of the query is on one line and
    has no space at either end, whatever the output is. *)
Theorem existingValue_one_line_trimmed (currentAutoRun : jsstring) :
  forallb (fun c => negb (isLineTerminator c)) (existingValue currentAutoRun)
  = true
  /\ trim (existingValue currentAutoRun) = existingValue currentAutoRun.
Proof.
  unfold existingValue.
  destruct (jsmatch currentAutoRun autoRunPattern) as [m|] eqn:Hm;
    [|split; reflexivity].
  destruct (autoRunPattern_capture _ m Hm) as (g & -> & _ & Hline).
  split; [apply forallb_trim, Hline|apply trim_idempotent].
Qed.

(** When the host refuses the write of the init script, or a directory has
    its name, [setupCmd] throws before it has run a command. *)
Lemma setupCmd_when_write_fails (w : World) :
  ~ writable (fs w) CMD_INIT_FILE cmdContent ->
  exists e,
    setupCmd w
    = (Throw e,
       mkWorld (fs w) (execd w)
         (console w
          ++ [Log (nl ++ memo ++ js " Setting up Command Prompt (cmd.exe)...")]))
    /\ forall msg,
         io_fault (fs w) (OpWrite CMD_INIT_FILE cmdContent) = Some msg ->
         e = Error msg.
Proof.
  intros Hw. unfold setupCmd. rewrite bind_log. cbv beta.
  unfold mbind at 1, M_bind at 1, writeFileSync. cbn [fs execd console].
  destruct (io_fault (fs w) (OpWrite CMD_INIT_FILE cmdContent)) as [msg|] eqn:Hio.
  - eexists. split; [reflexivity|]. intros msg' Hmsg. congruence.
  - destruct (fs w !! CMD_INIT_FILE) as [[c|]|] eqn:Hf.
    + destruct Hw. split; [exact Hio|]. rewrite Hf. discriminate.
    + eexists. split; [reflexivity|]. intros msg' Hmsg. discriminate.
    + destruct Hw. split; [exact Hio|]. rewrite Hf. discriminate.
Qed.

Lemma writable_dec (files : gmap (list N) node) (path data : jsstring) :
  writable files path data \/ ~ writable files path data.
Proof.
  unfold writable.
  destruct (io_fault files (OpWrite path data)) as [msg|].
  - right. intros [Hio _]. discriminate.
  - destruct (files !! path) as [[c|]|].
    + left. split; [reflexivity|discriminate].
    + right. intros [_ Hdir]. congruence.
    + left. split; [reflexivity|discriminate].
Qed.

(** Once the init script is written, [setupCmd] returns, with one report. *)
Lemma setupCmd_outcomes (w : World) :
  writable (fs w) CMD_INIT_FILE cmdContent ->
  exists report commands,
    setupCmd w
    = (Ok tt,
       mkWorld (<[CMD_INIT_FILE := File cmdContent]> (fs w))
               (execd w ++ commands)
               (console w ++ cmdHeader ++ report))
    /\ (report = [autoRunKept] \/ report = [autoRunConfigured]
        \/ report = manualSetup)
    /\ (commands = [regQuery]
        \/ exists value, commands = [regQuery; regAdd value]).
Proof.
  intros Hw.
  destruct (spawn (execd w) regQuery) as [msg|stdout] eqn:Hq.
  { exists manualSetup, [regQuery].
    split; [apply (setupCmd_when_query_fails w msg Hw Hq)|].
    split; [right; right; reflexivity|left; reflexivity]. }
  destruct (includes (trim stdout) CMD_INIT_FILE) eqn:Hin.
  { exists [autoRunKept], [regQuery].
    split; [apply (setupCmd_when_configured w stdout Hw Hq Hin)|].
    split; [left; reflexivity|left; reflexivity]. }
  destruct (spawn (execd w ++ [regQuery])
              (regAdd (newAutoRun (existingValue (trim stdout)))))
    as [msg|ack] eqn:Hadd.
  - exists manualSetup, [regQuery; regAdd (newAutoRun (existingValue (trim stdout)))].
    split; [apply (setupCmd_when_add_fails w stdout msg Hw Hq Hin Hadd)|].
    split; [right; right; reflexivity|right; eexists; reflexivity].
  - exists [autoRunConfigured],
      [regQuery; regAdd (newAutoRun (existingValue (trim stdout)))].
    split; [apply (setupCmd_when_add_succeeds w stdout ack Hw Hq Hin Hadd)|].
    split; [right; left; reflexivity|right; eexists; reflexivity].
Qed.

(** X13: whatever the registry commands answer, once the init script is
    written [setupCmd] returns normally, has run the query and at most one
    [reg add], and has printed exactly one of its three reports. *)
Theorem setupCmd_reports_once (w : World) :
  writable (fs w) CMD_INIT_FILE cmdContent ->
  exists w' report commands,
    setupCmd w = (Ok tt, w')
    /\ console w' = console w ++ cmdHeader ++ report
    /\ (report = [autoRunKept] \/ report = [autoRunConfigured]
        \/ report = manualSetup)
    /\ execd w' = execd w ++ commands
    /\ (commands = [regQuery]
        \/ exists value, commands = [regQuery; regAdd value]).
Proof.
  intros Hw.
  destruct (setupCmd_outcomes w Hw) as (report & commands & Hrun & Hr & Hc).
  eexists _, report, commands. split; [exact Hrun|].
  cbn [fs execd console]. repeat split; assumption || reflexivity.
Qed.

(** X5: [setupCmd] changes no file but the init script, whether it returns
    or throws. *)
Theorem setupCmd_touches_only_init_script (w : World) (path : jsstring) :
  path <> CMD_INIT_FILE ->
  fs (setupCmd w).2 !! path = fs w !! path.
Proof.
  intros Hne. destruct (writable_dec (fs w) CMD_INIT_FILE cmdContent) as [Hw|Hw].
  - destruct (setupCmd_outcomes w Hw) as (report & commands & Hrun & _).
    rewrite Hrun. cbn [snd fs]. apply lookup_insert_ne. congruence.
  - destruct (setupCmd_when_write_fails w Hw) as (e & Hrun & _).
    rewrite Hrun. reflexivity.
Qed.

Lemma newAutoRun_includes (existing : jsstring) :
  includes (newAutoRun existing) CMD_INIT_FILE = true.
Proof.
  apply includes_spec. unfold newAutoRun. destruct (truthy existing).
  - exists (existing ++ js " & "), []. rewrite <- app_assoc, app_nil_r.
    reflexivity.
  - exists [], []. rewrite app_nil_r. reflexivity.
Qed.

(** X11: registration is idempotent.  After a run whose [reg add]
    succeeded, if the next query prints the value that was written, the
    next call of [setupCmd] runs the query alone and leaves every file as
    it is. *)
Theorem autoRun_registration_idempotent (w : World)
    (stdout ack stdout' : jsstring) :
  (forall files, io_fault files (OpWrite CMD_INIT_FILE cmdContent) = None) ->
  fs w !! CMD_INIT_FILE <> Some Dir ->
  spawn (execd w) regQuery = inr stdout ->
  includes (trim stdout) CMD_INIT_FILE = false ->
  spawn (execd w ++ [regQuery])
        (regAdd (newAutoRun (existingValue (trim stdout)))) = inr ack ->
  spawn (execd w ++ [regQuery;
                     regAdd (newAutoRun (existingValue (trim stdout)))])
        regQuery = inr stdout' ->
  includes (trim stdout') (newAutoRun (existingValue (trim stdout))) = true ->
  setupCmd (setupCmd w).2
  = (Ok tt,
     mkWorld (fs (setupCmd w).2)
             (execd (setupCmd w).2 ++ [regQuery])
             (console (setupCmd w).2 ++ cmdHeader ++ [autoRunKept])).
Proof.
  intros Hio Hdir Hq Hin Hadd Hq' Hin'.
  rewrite (setupCmd_when_add_succeeds w stdout ack (conj (Hio _) Hdir)
             Hq Hin Hadd).
  cbn [snd].
  rewrite (setupCmd_when_configured (mkWorld _ _ _) stdout').
  - cbn [fs execd console]. rewrite insert_insert_eq. reflexivity.
  - split; [apply Hio|]. cbn [fs]. rewrite lookup_insert_eq. discriminate.
  - exact Hq'.
  - exact (includes_trans _ _ _ Hin' (newAutoRun_includes _)).
Qed.

(** ** More on [setupPowerShell] *)

(** What [setupPowerShell] can change, whether it returns or throws. *)
Lemma setupPowerShell_effect (w : World) :
  exists path,
    profilePath w = (Ok path, w)
    /\ execd (setupPowerShell w).2 = execd w
    /\ (forall other,
          other <> path -> other <> join [path; js ".."] ->
          other ∉ ancestors (join [path; js ".."]) ->
          fs (setupPowerShell w).2 !! other = fs w !! other)
    /\ (forall other x,
          other <> path -> fs w !! other = Some x ->
          fs (setupPowerShell w).2 !! other = Some x).
Proof.
  assert (Hp : exists path, profilePath w = (Ok path, w))
    by (eexists; apply profilePath_run).
  destruct Hp as [path Hp]. exists path. split; [exact Hp|].
  rewrite (setupPowerShell_start w path Hp).
  rewrite bind_existsSync. cbn [fs].
  unfold mbind, M_bind, existsSync, readFileSync, mkdirSync, writeFileSync,
    console_log, mret, M_ret.
  cbn [fs execd console].
  repeat (case_match; cbn [fs execd console] in *; simplify_eq);
    cbn [snd fs execd console];
    (split; [reflexivity|]);
    (split;
     [ intros other Hother Hdir Habove;
       rewrite ?lookup_insert_ne by congruence;
       rewrite ?makeDirs_other
         by (apply not_elem_of_cons; split; [exact Hdir|exact Habove]);
       reflexivity
     | intros other x Hother Hx;
       rewrite ?lookup_insert_ne by congruence;
       rewrite ?(makeDirs_keeps _ other _ x Hx);
       exact Hx || reflexivity ]).
Qed.

(** X6: [setupPowerShell] runs no command.  The only paths it can change
    are the profile it resolved, the directory of that profile and the
    directories above it; and the profile is the only thing already there
    that it can change, whether it returns or throws. *)
Theorem setupPowerShell_touches_only_profile (w : World) :
  exists path,
    profilePath w = (Ok path, w)
    /\ execd (setupPowerShell w).2 = execd w
    /\ (forall other,
          other <> path -> other <> join [path; js ".."] ->
          other ∉ ancestors (join [path; js ".."]) ->
          fs (setupPowerShell w).2 !! other = fs w !! other)
    /\ (forall other x,
          other <> path -> fs w !! other = Some x ->
          fs (setupPowerShell w).2 !! other = Some x).
Proof. exact (setupPowerShell_effect w). Qed.

(** X7: a profile that exists but is empty gets the marker block alone,
    without the blank line that separates it from earlier content. *)
Theorem empty_profile_gets_block_alone (w : World) (path : jsstring) :
  profilePath w = (Ok path, w) ->
  fs w !! path = Some (File []) ->
  permissive ->
  setupPowerShell w
  = (Ok tt,
     mkWorld (<[path := File markerBlock]> (fs w)) (execd w)
             (console w ++ profileHeader :: profileConfigured path)).
Proof.
  intros Hp Hf Hio. rewrite <- markerBlock_bytes.
  apply (setupPowerShell_when_unmarked w path [] Hp Hf (Hio _ _) eq_refl).
  split; [apply Hio|]. rewrite Hf. discriminate.
Qed.

(** X8: when only the PowerShell profile exists, without the marker in its
    text, it is the one rewritten, with the marker block after its text,
    and no WindowsPowerShell profile appears. *)
Theorem fallback_profile_edited_in_place (w : World) (content : bytes) :
  fs w !! POWERSHELL_PROFILE_5 = None ->
  fs w !! POWERSHELL_PROFILE_6 = Some (File content) ->
  includes (utf8_decode content) (js "fnm env") = false ->
  permissive ->
  setupPowerShell w
  = (Ok tt,
     mkWorld (<[POWERSHELL_PROFILE_6
                := File (utf8_encode (newContent (utf8_decode content)))]>
                (fs w))
             (execd w)
             (console w
              ++ profileHeader :: profileConfigured POWERSHELL_PROFILE_6))
  /\ fs (setupPowerShell w).2 !! POWERSHELL_PROFILE_5 = None.
Proof.
  intros H5 H6 Hin Hio.
  assert (Hp : profilePath w = (Ok POWERSHELL_PROFILE_6, w)).
  { rewrite profilePath_run, H5, H6.
    rewrite bool_decide_eq_false_2 by (intros [x Hx]; discriminate).
    rewrite bool_decide_eq_true_2 by eauto. reflexivity. }
  assert (Hrun := setupPowerShell_when_unmarked w _ content Hp H6
                    (Hio _ _) Hin).
  rewrite Hrun by (split; [apply Hio|rewrite H6; discriminate]).
  split; [reflexivity|]. cbn [snd fs].
  rewrite lookup_insert_ne by congruence. exact H5.
Qed.

(** X9: a profile whose bytes contain [fnm env] anywhere, inside the marker
    block or not, is left as it is and only reported. *)
Theorem marked_profile_untouched (w : World) (path : jsstring)
    (before after : bytes) :
  profilePath w = (Ok path, w) ->
  fs w !! path = Some (File (before ++ js "fnm env" ++ after)) ->
  io_fault (fs w) (OpRead path) = None ->
  setupPowerShell w
  = (Ok tt, mkWorld (fs w) (execd w)
              (console w ++ profileHeader :: profileKept path)).
Proof.
  intros Hp Hf Hio.
  apply (setupPowerShell_when_configured w path _ Hp Hf Hio).
  apply includes_decoded. reflexivity.
Qed.

(** X12: when no profile exists, the directory of the profile is made if
    it is missing, together with the missing directories above it, none of
    which is a file; it is left alone if it is there.  The profile is
    written in both cases. *)
Theorem profile_directory_made_when_missing (w : World) :
  fs w !! POWERSHELL_PROFILE_5 = None ->
  fs w !! POWERSHELL_PROFILE_6 = None ->
  permissive ->
  join [POWERSHELL_PROFILE_5; js ".."] <> POWERSHELL_PROFILE_5 ->
  POWERSHELL_PROFILE_5 ∉ ancestors (join [POWERSHELL_PROFILE_5; js ".."]) ->
  (fs w !! join [POWERSHELL_PROFILE_5; js ".."] = None ->
   (forall above content,
      above ∈ ancestors (join [POWERSHELL_PROFILE_5; js ".."]) ->
      fs w !! above <> Some (File content)) ->
   fs (setupPowerShell w).2
   = <[POWERSHELL_PROFILE_5 := File markerBlock]>
       (foldr makeDir (fs w)
          (join [POWERSHELL_PROFILE_5; js ".."]
           :: ancestors (join [POWERSHELL_PROFILE_5; js ".."])))
   /\ forall made,
        made ∈ join [POWERSHELL_PROFILE_5; js ".."]
               :: ancestors (join [POWERSHELL_PROFILE_5; js ".."]) ->
        fs (setupPowerShell w).2 !! made = Some Dir)
  /\ (fs w !! join [POWERSHELL_PROFILE_5; js ".."] = Some Dir ->
      fs (setupPowerShell w).2
      = <[POWERSHELL_PROFILE_5 := File markerBlock]> (fs w)).
Proof.
  intros H5 H6 Hio Hdir Habove.
  assert (Hp : profilePath w = (Ok POWERSHELL_PROFILE_5, w)).
  { rewrite profilePath_run, H5, H6.
    rewrite bool_decide_eq_false_2 by (intros [x Hx]; discriminate).
    reflexivity. }
  pose proof (setupPowerShell_when_absent w _ Hp H5 (Hio _ _)) as Hrun.
  cbv zeta in Hrun. split.
  - intros Hd Hfiles.
    rewrite bool_decide_eq_false_2 in Hrun
      by (rewrite Hd; intros [x Hx]; discriminate).
    rewrite Hrun.
    2: { split; [apply Hio|]. rewrite makeDirs_other, H5; [discriminate|].
         apply not_elem_of_cons. split; [congruence|exact Habove]. }
    cbn [snd fs]. split; [reflexivity|].
    intros made Hin.
    assert (Hne : made <> POWERSHELL_PROFILE_5).
    { intros ->. apply elem_of_cons in Hin as [Heq|Hin].
      - apply Hdir. symmetry. exact Heq.
      - exact (Habove Hin). }
    rewrite lookup_insert_ne by congruence.
    rewrite makeDirs_lookup, (bool_decide_eq_true_2 _ Hin).
    destruct (fs w !! made) as [[content|]|] eqn:Hm; try reflexivity.
    exfalso. apply elem_of_cons in Hin as [->|Hin].
    + congruence.
    + exact (Hfiles made content Hin Hm).
  - intros Hd. rewrite bool_decide_eq_true_2 in Hrun by (rewrite Hd; eauto).
    rewrite Hrun; [reflexivity|]. split; [apply Hio|].
    rewrite H5. discriminate.
Qed.

(** ** More on the whole script *)

Lemma main_when_complete (w w1 w2 : World) :
  setupPowerShell w = (Ok tt, w1) ->
  setupCmd w1 = (Ok tt, w2) ->
  main w = (Ok tt, mkWorld (fs w2) (execd w2) (console w2 ++ completion)).
Proof.
  intros Hps Hcmd. unfold main. erewrite try_ok; [reflexivity|].
  rewrite (bind_ok _ _ _ _ _ Hps), (bind_ok _ _ _ _ _ Hcmd).
  rewrite !bind_log. unfold console_log. cbn [fs execd console].
  rewrite <- !app_assoc. reflexivity.
Qed.

Lemma main_when_profile_throws (w w1 : World) (e : exn) :
  setupPowerShell w = (Throw e, w1) ->
  main w
  = (Exit 1%Z,
     mkWorld (fs w1) (execd w1)
       (console w1
        ++ [ErrorLog (nl ++ cross_mark ++ js " Error during setup:" ++ js " "
                      ++ message e)])).
Proof.
  intros Hps. unfold main. erewrite try_throw by (apply bind_throw; exact Hps).
  reflexivity.
Qed.

Lemma main_when_cmd_throws (w w1 w2 : World) (e : exn) :
  setupPowerShell w = (Ok tt, w1) ->
  setupCmd w1 = (Throw e, w2) ->
  main w
  = (Exit 1%Z,
     mkWorld (fs w2) (execd w2)
       (console w2
        ++ [ErrorLog (nl ++ cross_mark ++ js " Error during setup:" ++ js " "
                      ++ message e)])).
Proof.
  intros Hps Hcmd. unfold main. erewrite try_throw.
  2: { rewrite (bind_ok _ _ _ _ _ Hps). apply bind_throw. exact Hcmd. }
  reflexivity.
Qed.

Lemma run_when_fnm_missing (w : World) (msg : jsstring) :
  spawn (execd w) (js "fnm --version") = inl msg ->
  run w
  = (1%Z,
     mkWorld (fs w) (execd w ++ [js "fnm --version"])
       (console w
        ++ [Log (rocket ++ js " Setting up fnm for Windows..." ++ nl);
            ErrorLog (cross_mark ++ js " fnm is not installed or not in PATH");
            ErrorLog (js "   Please install fnm first using: choco install fnm")])).
Proof.
  intros Hfnm. unfold run, script. rewrite bind_log. cbv beta.
  unfold preflight. unfold mbind at 1, M_bind at 1.
  erewrite try_throw by (apply bind_throw, execSync_throw; exact Hfnm).
  unfold mbind, M_bind, console_error, process_exit.
  cbn [fs execd console exitStatus]. rewrite <- !app_assoc. reflexivity.
Qed.

Lemma run_when_fnm_present (w : World) (version : jsstring) :
  spawn (execd w) (js "fnm --version") = inr version ->
  run w = (exitStatus (main (preflightPassed w)).1, (main (preflightPassed w)).2).
Proof.
  intros Hfnm. unfold run, script. rewrite bind_log. cbv beta.
  erewrite (bind_ok preflight _ _ (preflightPassed w) tt).
  2: { unfold preflight. apply try_ok.
       erewrite bind_ok by (apply execSync_ok; exact Hfnm).
       unfold console_log, preflightPassed. cbn [fs execd console].
       rewrite <- app_assoc. reflexivity. }
  destruct (main (preflightPassed w)). reflexivity.
Qed.

(** X1: without fnm the script stops at once with status 1: it prints the
    two error lines, writes no file and runs no other command. *)
Theorem missing_fnm_stops_the_script (w : World) (msg : jsstring) :
  spawn (execd w) (js "fnm --version") = inl msg ->
  run w
  = (1%Z,
     mkWorld (fs w) (execd w ++ [js "fnm --version"])
       (console w
        ++ [Log (rocket ++ js " Setting up fnm for Windows..." ++ nl);
            ErrorLog (cross_mark ++ js " fnm is not installed or not in PATH");
            ErrorLog (js "   Please install fnm first using: choco install fnm")])).
Proof. exact (run_when_fnm_missing w msg). Qed.

(** What [main] ends with. *)
Lemma main_outcomes (w : World) :
  (exists w', main w = (Ok tt, w')
              /\ exists before, console w' = before ++ completion)
  \/ (exists w' before text,
        main w = (Exit 1%Z, w') /\ console w' = before ++ [ErrorLog text]).
Proof.
  destruct (setupPowerShell w) as [[[]|e|c] w1] eqn:Hps.
  - destruct (setupCmd w1) as [[[]|e|c] w2] eqn:Hcmd.
    + left. eexists. split; [apply (main_when_complete w w1 w2 Hps Hcmd)|].
      eexists. reflexivity.
    + right. eexists _, _, _.
      split; [apply (main_when_cmd_throws w w1 w2 e Hps Hcmd)|reflexivity].
    + destruct (setupCmd_never_exits w1 w2 c Hcmd).
  - right. eexists _, _, _.
    split; [apply (main_when_profile_throws w w1 e Hps)|reflexivity].
  - destruct (setupPowerShell_never_exits w w1 c Hps).
Qed.

(** X2: the script ends with status 0 or 1 and says which: with status 0 the
    last lines printed are the completion summary, with status 1 the last
    line is an error message. *)
Theorem run_reports_its_outcome (w : World) :
  (exists w' before, run w = (0%Z, w') /\ console w' = before ++ completion)
  \/ (exists w' before text,
        run w = (1%Z, w') /\ console w' = before ++ [ErrorLog text]).
Proof.
  destruct (spawn (execd w) (js "fnm --version")) as [msg|version] eqn:Hfnm.
  - right. eexists _, _, _.
    split; [apply (run_when_fnm_missing w msg Hfnm)|].
    cbn [console].
    change [?a; ?b; ?c] with ([a; b] ++ [c]). rewrite app_assoc. reflexivity.
  - rewrite (run_when_fnm_present w version Hfnm).
    destruct (main_outcomes (preflightPassed w))
      as [(w' & Hmain & before & Hcon)|(w' & before & text & Hmain & Hcon)];
      rewrite Hmain; cbn [fst snd exitStatus].
    + left. eauto.
    + right. eauto.
Qed.

(** X3: a refused write of the init script is fatal, unlike a refused
    write of AutoRun: [setupCmd] throws before it runs a command, and
    [main] prints the error and ends the process with status 1. *)
Theorem init_script_write_failure_is_fatal (w w1 : World) (msg : jsstring) :
  setupPowerShell w = (Ok tt, w1) ->
  io_fault (fs w1) (OpWrite CMD_INIT_FILE cmdContent) = Some msg ->
  main w
  = (Exit 1%Z,
     mkWorld (fs w1) (execd w1)
       (console w1
        ++ [Log (nl ++ memo ++ js " Setting up Command Prompt (cmd.exe)...");
            ErrorLog (nl ++ cross_mark ++ js " Error during setup:" ++ js " "
                      ++ msg)])).
Proof.
  intros Hps Hio.
  destruct (setupCmd_when_write_fails w1) as (e & Hcmd & He).
  { intros [Hok _]. congruence. }
  rewrite (main_when_cmd_throws w w1 _ e Hps Hcmd), (He msg Hio).
  cbn [fs execd console message]. rewrite <- app_assoc. reflexivity.
Qed.

(** X4: an exception of [setupPowerShell] ends the script with status 1 and
    its message; [setupCmd] is not called, so the world is the one
    [setupPowerShell] left, plus the error line. *)
Theorem profile_failure_skips_setupCmd (w w1 : World) (e : exn) :
  setupPowerShell w = (Throw e, w1) ->
  main w
  = (Exit 1%Z,
     mkWorld (fs w1) (execd w1)
       (console w1
        ++ [ErrorLog (nl ++ cross_mark ++ js " Error during setup:" ++ js " "
                      ++ message e)]))
  /\ execd (main w).2 = execd w.
Proof.
  intros Hps. rewrite (main_when_profile_throws w w1 e Hps).
  split; [reflexivity|]. cbn [snd execd].
  destruct (setupPowerShell_effect w) as (path & _ & Hex & _).
  rewrite Hps in Hex. exact Hex.
Qed.

(** X14: the registry cannot make the script fail.  With fnm installed,
    the profile set up and the init script written, the script ends with
    status 0 whatever [reg query] and [reg add] answer. *)
Theorem registry_never_fails_the_run (w w1 : World) (version : jsstring) :
  spawn (execd w) (js "fnm --version") = inr version ->
  setupPowerShell (preflightPassed w) = (Ok tt, w1) ->
  writable (fs w1) CMD_INIT_FILE cmdContent ->
  (run w).1 = 0%Z
  /\ fs (run w).2 = <[CMD_INIT_FILE := File cmdContent]> (fs w1).
Proof.
  intros Hfnm Hps Hw. rewrite (run_when_fnm_present w version Hfnm).
  destruct (setupCmd_outcomes w1 Hw) as (report & commands & Hcmd & _).
  rewrite (main_when_complete _ w1 _ Hps Hcmd). split; reflexivity.
Qed.

(** The commands [main] runs. *)
Lemma main_commands (w : World) :
  exists rest, execd (main w).2 = execd w ++ rest /\ registryCommands rest.
Proof.
  destruct (setupPowerShell_effect w) as (path & _ & Hex & _).
  destruct (setupPowerShell w) as [[[]|e|c] w1] eqn:Hps; cbn [snd] in Hex.
  - destruct (writable_dec (fs w1) CMD_INIT_FILE cmdContent) as [Hw|Hw].
    + destruct (setupCmd_outcomes w1 Hw) as (report & commands & Hcmd & _ & Hc).
      exists commands. rewrite (main_when_complete w w1 _ Hps Hcmd).
      cbn [snd execd]. rewrite Hex. split; [reflexivity|]. right. exact Hc.
    + destruct (setupCmd_when_write_fails w1 Hw) as (e & Hcmd & _).
      exists []. rewrite (main_when_cmd_throws w w1 _ e Hps Hcmd).
      cbn [snd execd]. rewrite Hex, app_nil_r.
      split; [reflexivity|left; reflexivity].
  - exists []. rewrite (main_when_profile_throws w w1 e Hps).
    cbn [snd execd]. rewrite Hex, app_nil_r.
    split; [reflexivity|left; reflexivity].
  - destruct (setupPowerShell_never_exits w w1 c Hps).
Qed.

(** X15: whatever happens, the commands the script hands to the shell are
    [fnm --version], then at most the query of AutoRun, then at most one
    [reg add], in this order and nothing else. *)
Theorem script_runs_only_its_commands (w : World) :
  exists rest,
    execd (run w).2 = execd w ++ js "fnm --version" :: rest
    /\ registryCommands rest.
Proof.
  destruct (spawn (execd w) (js "fnm --version")) as [msg|version] eqn:Hfnm.
  - exists []. rewrite (run_when_fnm_missing w msg Hfnm).
    split; [reflexivity|left; reflexivity].
  - rewrite (run_when_fnm_present w version Hfnm). cbn [snd].
    destruct (main_commands (preflightPassed w)) as (rest & Hex & Hrest).
    exists rest. rewrite Hex. cbn [preflightPassed execd].
    rewrite <- app_assoc. split; [reflexivity|exact Hrest].
Qed.

End Properties.

(** ** The claims at work on the demonstration hosts *)

(** Witness of C1 on a machine whose AutoRun is unset: the query fails,
    the manual instructions are printed and no [reg add] is run. *)
Lemma query_failure_skips_the_write_witness :
  let H := Demo.unset in
  writable (fs Demo.fresh) CMD_INIT_FILE cmdContent
  /\ spawn (execd Demo.fresh) regQuery = inl (js "Command failed: reg query")
  /\ setupCmd Demo.fresh
     = (Ok tt,
        mkWorld (<[CMD_INIT_FILE := File cmdContent]> (fs Demo.fresh))
                (execd Demo.fresh ++ [regQuery])
                (console Demo.fresh ++ cmdHeader ++ manualSetup)).
Proof.
  cbv zeta.
  assert (Hw : @writable Demo.unset (fs Demo.fresh) (@CMD_INIT_FILE Demo.unset)
                 cmdContent)
    by (split; [reflexivity|vm_compute; discriminate]).
  assert (Hq : @spawn Demo.unset (execd Demo.fresh) regQuery
               = inl (js "Command failed: reg query"))
    by reflexivity.
  split; [exact Hw|]. split; [exact Hq|].
  exact (proj1 (@query_failure_skips_the_write Demo.unset Demo.fresh _ Hw Hq)).
Defined.

(** Witness of C2 on an empty disk with [reg add] refused. *)
Lemma registry_write_failure_is_recoverable_witness :
  let H := Demo.denied in
  spawn (execd Demo.fresh) (js "fnm --version") = inr (js "fnm 1.38.1" ++ nl)
  /\ setupPowerShell (preflightPassed Demo.fresh) = (Ok tt, Demo.readyForCmd)
  /\ writable (fs Demo.readyForCmd) CMD_INIT_FILE cmdContent
  /\ spawn (execd Demo.readyForCmd) regQuery = inr Demo.printed
  /\ includes (trim Demo.printed) CMD_INIT_FILE = false
  /\ spawn (execd Demo.readyForCmd ++ [regQuery])
           (regAdd (newAutoRun (existingValue (trim Demo.printed))))
     = inl (js "Command failed: reg add")
  /\ run Demo.fresh
     = (0%Z,
        mkWorld (<[CMD_INIT_FILE := File cmdContent]> (fs Demo.readyForCmd))
                (execd Demo.readyForCmd
                 ++ [regQuery;
                     regAdd (newAutoRun (existingValue (trim Demo.printed)))])
                (console Demo.readyForCmd ++ cmdHeader ++ manualSetup
                 ++ completion)).
Proof.
  cbv zeta.
  assert (H0 : @spawn Demo.denied (execd Demo.fresh) (js "fnm --version")
               = inr (js "fnm 1.38.1" ++ nl)) by reflexivity.
  assert (H1 : @setupPowerShell Demo.denied (preflightPassed Demo.fresh)
               = (Ok tt, Demo.readyForCmd))
    by reflexivity.
  assert (H2 : @writable Demo.denied (fs Demo.readyForCmd)
                 (@CMD_INIT_FILE Demo.denied) cmdContent)
    by (split; [reflexivity|vm_compute; discriminate]).
  assert (H3 : @spawn Demo.denied (execd Demo.readyForCmd) regQuery
               = inr Demo.printed)
    by reflexivity.
  assert (H4 : includes (trim Demo.printed) (@CMD_INIT_FILE Demo.denied) = false)
    by reflexivity.
  assert (H5 : @spawn Demo.denied (execd Demo.readyForCmd ++ [regQuery])
                 (regAdd (@newAutoRun Demo.denied
                            (existingValue (trim Demo.printed))))
               = inl (js "Command failed: reg add"))
    by reflexivity.
  split; [exact H0|]. split; [exact H1|]. split; [exact H2|].
  split; [exact H3|]. split; [exact H4|]. split; [exact H5|].
  exact (@registry_write_failure_is_recoverable Demo.denied Demo.fresh
           Demo.readyForCmd _ Demo.printed _ H0 H1 H2 H3 H4 H5).
Defined.



(** Witness of C4 with AutoRun naming the init script already. *)
Lemma configured_autorun_untouched_witness :
  let H := Demo.configured in
  writable (fs Demo.fresh) CMD_INIT_FILE cmdContent
  /\ spawn (execd Demo.fresh) regQuery = inr Demo.printedConfigured
  /\ includes (trim Demo.printedConfigured) CMD_INIT_FILE = true
  /\ setupCmd Demo.fresh
     = (Ok tt,
        mkWorld (<[CMD_INIT_FILE := File cmdContent]> (fs Demo.fresh))
                (execd Demo.fresh ++ [regQuery])
                (console Demo.fresh ++ cmdHeader ++ [autoRunKept])).
Proof.
  cbv zeta.
  assert (Hw : @writable Demo.configured (fs Demo.fresh)
                 (@CMD_INIT_FILE Demo.configured) cmdContent)
    by (split; [reflexivity|vm_compute; discriminate]).
  assert (Hq : @spawn Demo.configured (execd Demo.fresh) regQuery
               = inr Demo.printedConfigured)
    by reflexivity.
  assert (Hin : includes (trim Demo.printedConfigured)
                  (@CMD_INIT_FILE Demo.configured) = true)
    by reflexivity.
  split; [exact Hw|]. split; [exact Hq|]. split; [exact Hin|].
  exact (proj1 (@configured_autorun_untouched Demo.configured Demo.fresh
                  Demo.printedConfigured Hw Hq Hin)).
Defined.

(** Witness of C5, two calls on an empty disk. *)
Lemma setupPowerShell_idempotent_witness :
  let H := Demo.unset in
  setupPowerShell Demo.fresh = (Ok tt, Demo.profiled)
  /\ fs Demo.profiled !! POWERSHELL_PROFILE_5 = Some (File markerBlock)
  /\ fs (setupPowerShell Demo.profiled).2 = fs Demo.profiled.
Proof.
  cbv zeta.
  assert (H1 : @setupPowerShell Demo.unset Demo.fresh = (Ok tt, Demo.profiled))
    by reflexivity.
  split; [exact H1|]. split; [reflexivity|].
  exact (proj1 (@setupPowerShell_idempotent Demo.unset Demo.fresh
                  Demo.profiled H1)).
Defined.

(** Witness of C6 when only the PowerShell 6 profile exists. *)
Lemma profilePath_precedence_witness :
  let H := Demo.unset in
  fs Demo.withProfile6 !! POWERSHELL_PROFILE_5 = None
  /\ is_Some (fs Demo.withProfile6 !! POWERSHELL_PROFILE_6)
  /\ profilePath Demo.withProfile6
     = (Ok POWERSHELL_PROFILE_6, Demo.withProfile6).
Proof.
  cbv zeta.
  assert (H5 : fs Demo.withProfile6 !! @POWERSHELL_PROFILE_5 Demo.unset = None)
    by reflexivity.
  assert (H6 : is_Some (fs Demo.withProfile6 !! @POWERSHELL_PROFILE_6 Demo.unset))
    by (exists (File Demo.aliasLine); reflexivity).
  split; [exact H5|]. split; [exact H6|].
  exact (proj1 (proj2 (@profilePath_precedence Demo.unset Demo.withProfile6))
           H5 H6).
Defined.


(** Witness of C8, as corrected, on a UTF-8 profile that holds an accented
    letter. *)
Lemma wellformed_profile_content_preserved_witness :
  let H := Demo.unset in
  profilePath Demo.withAccentedProfile
  = (Ok POWERSHELL_PROFILE_5, Demo.withAccentedProfile)
  /\ fs Demo.withAccentedProfile !! POWERSHELL_PROFILE_5
     = Some (File Demo.accentedProfile)
  /\ Demo.accentedProfile <> []
  /\ utf8_encode (utf8_decode Demo.accentedProfile) = Demo.accentedProfile
  /\ includes (utf8_decode Demo.accentedProfile) (js "fnm env") = false
  /\ permissive
  /\ setupPowerShell Demo.withAccentedProfile
     = (Ok tt,
        mkWorld (<[POWERSHELL_PROFILE_5
                   := File (Demo.accentedProfile ++ nl ++ nl ++ markerBlock)]>
                   (fs Demo.withAccentedProfile))
                (execd Demo.withAccentedProfile)
                (console Demo.withAccentedProfile
                 ++ profileHeader :: profileConfigured POWERSHELL_PROFILE_5)).
Proof.
  cbv zeta.
  assert (Hp : @profilePath Demo.unset Demo.withAccentedProfile
               = (Ok (@POWERSHELL_PROFILE_5 Demo.unset),
                  Demo.withAccentedProfile))
    by reflexivity.
  assert (Hf : fs Demo.withAccentedProfile !! @POWERSHELL_PROFILE_5 Demo.unset
               = Some (File Demo.accentedProfile)) by reflexivity.
  assert (Hne : Demo.accentedProfile <> []) by (vm_compute; discriminate).
  assert (Hwf : utf8_encode (utf8_decode Demo.accentedProfile)
                = Demo.accentedProfile) by reflexivity.
  assert (Hin : includes (utf8_decode Demo.accentedProfile) (js "fnm env")
                = false)
    by reflexivity.
  assert (Hio : @permissive Demo.unset) by (intros files op; reflexivity).
  split; [exact Hp|]. split; [exact Hf|]. split; [exact Hne|].
  split; [exact Hwf|]. split; [exact Hin|]. split; [exact Hio|].
  exact (proj1 (@wellformed_profile_content_preserved Demo.unset
                  Demo.withAccentedProfile _ _ Hp Hf Hne Hwf Hin Hio)).
Defined.

(** C8 as written fails on a profile saved as UTF-16: the call returns, and
    the file it leaves begins with the bytes of two replacement characters
    where the byte-order mark was, so the earlier bytes are not kept. *)
Lemma utf16_profile_is_rewritten :
  let H := Demo.unset in
  fs Demo.withUtf16Profile !! POWERSHELL_PROFILE_5
  = Some (File Demo.utf16Profile)
  /\ includes (utf8_decode Demo.utf16Profile) (js "fnm env") = false
  /\ permissive
  /\ exists rewritten,
       setupPowerShell Demo.withUtf16Profile
       = (Ok tt,
          mkWorld (<[POWERSHELL_PROFILE_5 := File rewritten]>
                     (fs Demo.withUtf16Profile))
                  (execd Demo.withUtf16Profile)
                  (console Demo.withUtf16Profile
                   ++ profileHeader :: profileConfigured POWERSHELL_PROFILE_5))
       /\ take 6 rewritten = [0xEF; 0xBF; 0xBD; 0xEF; 0xBF; 0xBD]
       /\ ~ (Demo.utf16Profile `prefix_of` rewritten).
Proof.
  cbv zeta.
  split; [reflexivity|]. split; [reflexivity|].
  split; [intros files op; reflexivity|].
  exists (utf8_encode (newContent (utf8_decode Demo.utf16Profile))).
  split; [reflexivity|]. split; [reflexivity|].
  intros [rest Hrest]. vm_compute in Hrest. discriminate Hrest.
Qed.

(** Witness of C9, three calls over a stale init script. *)
Lemma init_script_always_template_witness :
  let H := Demo.withValue in
  (forall files, io_fault files (OpWrite CMD_INIT_FILE cmdContent) = None)
  /\ fs Demo.staleScript !! CMD_INIT_FILE <> Some Dir
  /\ fs (repeatSetupCmd 3 Demo.staleScript) !! CMD_INIT_FILE
     = Some (File cmdContent).
Proof.
  cbv zeta.
  assert (Hio : forall files,
            @io_fault Demo.withValue files
              (OpWrite (@CMD_INIT_FILE Demo.withValue) cmdContent) = None)
    by (intros files; reflexivity).
  assert (Hf : fs Demo.staleScript !! @CMD_INIT_FILE Demo.withValue
               <> Some Dir) by (vm_compute; discriminate).
  split; [exact Hio|]. split; [exact Hf|].
  exact (@init_script_always_template Demo.withValue Demo.staleScript 2 Hio Hf).
Defined.

(** Witness of C10 with AutoRun stored as REG_EXPAND_SZ. *)
Lemma unmatched_autorun_discarded_witness :
  let H := Demo.expandable in
  writable (fs Demo.fresh) CMD_INIT_FILE cmdContent
  /\ spawn (execd Demo.fresh) regQuery = inr Demo.printedExpandable
  /\ includes (trim Demo.printedExpandable) CMD_INIT_FILE = false
  /\ jsmatch (trim Demo.printedExpandable) autoRunPattern = None
  /\ execd (setupCmd Demo.fresh).2
     = execd Demo.fresh ++ [regQuery; regAdd CMD_INIT_FILE].
Proof.
  cbv zeta.
  assert (Hw : @writable Demo.expandable (fs Demo.fresh)
                 (@CMD_INIT_FILE Demo.expandable) cmdContent)
    by (split; [reflexivity|vm_compute; discriminate]).
  assert (Hq : @spawn Demo.expandable (execd Demo.fresh) regQuery
               = inr Demo.printedExpandable)
    by reflexivity.
  assert (Hin : includes (trim Demo.printedExpandable)
                  (@CMD_INIT_FILE Demo.expandable) = false)
    by reflexivity.
  assert (Hno : jsmatch (trim Demo.printedExpandable) autoRunPattern = None)
    by reflexivity.
  split; [exact Hw|]. split; [exact Hq|]. split; [exact Hin|].
  split; [exact Hno|].
  exact (proj1 (proj2 (@unmatched_autorun_discarded Demo.expandable Demo.fresh
                         Demo.printedExpandable Hw Hq Hin Hno))).
Defined.

(** ** The further properties at work on the demonstration hosts *)

(** Witness of X1 on a machine without fnm. *)
Lemma missing_fnm_stops_the_script_witness :
  let H := Demo.noFnm in
  spawn (execd Demo.fresh) (js "fnm --version")
  = inl (js "Command failed: fnm --version")
  /\ (run Demo.fresh).1 = 1%Z
  /\ fs (run Demo.fresh).2 = fs Demo.fresh.
Proof.
  cbv zeta.
  assert (H0 : @spawn Demo.noFnm (execd Demo.fresh) (js "fnm --version")
               = inl (js "Command failed: fnm --version")) by reflexivity.
  split; [exact H0|].
  rewrite (@missing_fnm_stops_the_script Demo.noFnm Demo.fresh _ H0).
  split; reflexivity.
Defined.

(** Witness of X3 in a home directory where the init script cannot be
    written. *)
Lemma init_script_write_failure_is_fatal_witness :
  let H := Demo.readOnlyHome in
  setupPowerShell Demo.fresh = (Ok tt, Demo.profiledReadOnly)
  /\ io_fault (fs Demo.profiledReadOnly) (OpWrite CMD_INIT_FILE cmdContent)
     = Some (js "EPERM: operation not permitted, open")
  /\ (main Demo.fresh).1 = Exit 1%Z
  /\ execd (main Demo.fresh).2 = [].
Proof.
  cbv zeta.
  assert (H1 : @setupPowerShell Demo.readOnlyHome Demo.fresh
               = (Ok tt, Demo.profiledReadOnly)) by reflexivity.
  assert (H2 : @io_fault Demo.readOnlyHome (fs Demo.profiledReadOnly)
                 (OpWrite (@CMD_INIT_FILE Demo.readOnlyHome) cmdContent)
               = Some (js "EPERM: operation not permitted, open"))
    by reflexivity.
  split; [exact H1|]. split; [exact H2|].
  rewrite (@init_script_write_failure_is_fatal Demo.readOnlyHome Demo.fresh
             Demo.profiledReadOnly _ H1 H2).
  split; reflexivity.
Defined.

(** Witness of X4 on a profile that cannot be read. *)
Lemma profile_failure_skips_setupCmd_witness :
  let H := Demo.unreadable in
  setupPowerShell Demo.withProfile
  = (Throw (Error (js "EACCES: permission denied, open")), Demo.profileFound)
  /\ (main Demo.withProfile).1 = Exit 1%Z
  /\ execd (main Demo.withProfile).2 = execd Demo.withProfile.
Proof.
  cbv zeta.
  assert (H1 : @setupPowerShell Demo.unreadable Demo.withProfile
               = (Throw (Error (js "EACCES: permission denied, open")),
                  Demo.profileFound)) by reflexivity.
  split; [exact H1|].
  destruct (@profile_failure_skips_setupCmd Demo.unreadable Demo.withProfile
              Demo.profileFound _ H1) as [Hmain Hex].
  split; [rewrite Hmain; reflexivity|exact Hex].
Defined.

(** Witness of X5: the profile keeps its text across [setupCmd]. *)
Lemma setupCmd_touches_only_init_script_witness :
  let H := Demo.withValue in
  POWERSHELL_PROFILE_5 <> CMD_INIT_FILE
  /\ fs (setupCmd Demo.withProfile).2 !! POWERSHELL_PROFILE_5
     = fs Demo.withProfile !! POWERSHELL_PROFILE_5.
Proof.
  cbv zeta.
  assert (Hne : @POWERSHELL_PROFILE_5 Demo.withValue
                <> @CMD_INIT_FILE Demo.withValue)
    by (vm_compute; discriminate).
  split; [exact Hne|].
  exact (@setupCmd_touches_only_init_script Demo.withValue Demo.withProfile
           _ Hne).
Defined.

(** Witness of X7 on an empty profile. *)
Lemma empty_profile_gets_block_alone_witness :
  let H := Demo.unset in
  profilePath Demo.emptyProfile = (Ok POWERSHELL_PROFILE_5, Demo.emptyProfile)
  /\ fs Demo.emptyProfile !! POWERSHELL_PROFILE_5 = Some (File [])
  /\ permissive
  /\ setupPowerShell Demo.emptyProfile
     = (Ok tt,
        mkWorld (<[POWERSHELL_PROFILE_5 := File markerBlock]>
                   (fs Demo.emptyProfile))
                (execd Demo.emptyProfile)
                (console Demo.emptyProfile
                 ++ profileHeader :: profileConfigured POWERSHELL_PROFILE_5)).
Proof.
  cbv zeta.
  assert (Hp : @profilePath Demo.unset Demo.emptyProfile
               = (Ok (@POWERSHELL_PROFILE_5 Demo.unset), Demo.emptyProfile))
    by reflexivity.
  assert (Hf : fs Demo.emptyProfile !! @POWERSHELL_PROFILE_5 Demo.unset
               = Some (File [])) by reflexivity.
  assert (Hio : @permissive Demo.unset) by (intros files op; reflexivity).
  split; [exact Hp|]. split; [exact Hf|]. split; [exact Hio|].
  exact (@empty_profile_gets_block_alone Demo.unset Demo.emptyProfile _
           Hp Hf Hio).
Defined.

(** Witness of X8 when only the PowerShell profile exists. *)
Lemma fallback_profile_edited_in_place_witness :
  let H := Demo.unset in
  fs Demo.withProfile6 !! POWERSHELL_PROFILE_5 = None
  /\ fs Demo.withProfile6 !! POWERSHELL_PROFILE_6 = Some (File Demo.aliasLine)
  /\ includes (utf8_decode Demo.aliasLine) (js "fnm env") = false
  /\ permissive
  /\ fs (setupPowerShell Demo.withProfile6).2 !! POWERSHELL_PROFILE_5 = None.
Proof.
  cbv zeta.
  assert (H5 : fs Demo.withProfile6 !! @POWERSHELL_PROFILE_5 Demo.unset = None)
    by reflexivity.
  assert (H6 : fs Demo.withProfile6 !! @POWERSHELL_PROFILE_6 Demo.unset
               = Some (File Demo.aliasLine)) by reflexivity.
  assert (Hin : includes (utf8_decode Demo.aliasLine) (js "fnm env") = false)
    by reflexivity.
  assert (Hio : @permissive Demo.unset) by (intros files op; reflexivity).
  split; [exact H5|]. split; [exact H6|]. split; [exact Hin|].
  split; [exact Hio|].
  exact (proj2 (@fallback_profile_edited_in_place Demo.unset Demo.withProfile6
                  _ H5 H6 Hin Hio)).
Defined.

(** Witness of X9 on a profile that names the command in a comment only. *)
Lemma marked_profile_untouched_witness :
  let H := Demo.unset in
  profilePath Demo.commentedProfile
  = (Ok POWERSHELL_PROFILE_5, Demo.commentedProfile)
  /\ fs Demo.commentedProfile !! POWERSHELL_PROFILE_5
     = Some (File (Demo.todoBefore ++ js "fnm env" ++ Demo.todoAfter))
  /\ io_fault (fs Demo.commentedProfile) (OpRead POWERSHELL_PROFILE_5) = None
  /\ setupPowerShell Demo.commentedProfile
     = (Ok tt,
        mkWorld (fs Demo.commentedProfile) (execd Demo.commentedProfile)
                (console Demo.commentedProfile
                 ++ profileHeader :: profileKept POWERSHELL_PROFILE_5)).
Proof.
  cbv zeta.
  assert (Hp : @profilePath Demo.unset Demo.commentedProfile
               = (Ok (@POWERSHELL_PROFILE_5 Demo.unset), Demo.commentedProfile))
    by reflexivity.
  assert (Hf : fs Demo.commentedProfile !! @POWERSHELL_PROFILE_5 Demo.unset
               = Some (File (Demo.todoBefore ++ js "fnm env" ++ Demo.todoAfter)))
    by reflexivity.
  assert (Hio : @io_fault Demo.unset (fs Demo.commentedProfile)
                  (OpRead (@POWERSHELL_PROFILE_5 Demo.unset)) = None)
    by reflexivity.
  split; [exact Hp|]. split; [exact Hf|]. split; [exact Hio|].
  exact (@marked_profile_untouched Demo.unset Demo.commentedProfile _ _ _
           Hp Hf Hio).
Defined.

(** Witness of X11 on the host that keeps AutoRun. *)
Lemma autoRun_registration_idempotent_witness :
  let H := Demo.keeping in
  (forall files, io_fault files (OpWrite CMD_INIT_FILE cmdContent) = None)
  /\ fs Demo.fresh !! CMD_INIT_FILE <> Some Dir
  /\ spawn (execd Demo.fresh) regQuery = inr Demo.printed
  /\ includes (trim Demo.printed) CMD_INIT_FILE = false
  /\ spawn (execd Demo.fresh ++ [regQuery])
           (regAdd (newAutoRun (existingValue (trim Demo.printed))))
     = inr (js "The operation completed successfully.")
  /\ spawn (execd Demo.fresh
            ++ [regQuery;
                regAdd (newAutoRun (existingValue (trim Demo.printed)))])
           regQuery
     = inr Demo.printedJoined
  /\ includes (trim Demo.printedJoined)
       (newAutoRun (existingValue (trim Demo.printed))) = true
  /\ setupCmd (setupCmd Demo.fresh).2
     = (Ok tt,
        mkWorld (fs (setupCmd Demo.fresh).2)
                (execd (setupCmd Demo.fresh).2 ++ [regQuery])
                (console (setupCmd Demo.fresh).2 ++ cmdHeader ++ [autoRunKept])).
Proof.
  cbv zeta.
  assert (Hio : forall files,
            @io_fault Demo.keeping files
              (OpWrite (@CMD_INIT_FILE Demo.keeping) cmdContent) = None)
    by (intros files; reflexivity).
  assert (Hdir : fs Demo.fresh !! @CMD_INIT_FILE Demo.keeping <> Some Dir)
    by (vm_compute; discriminate).
  assert (Hq : @spawn Demo.keeping (execd Demo.fresh) regQuery
               = inr Demo.printed) by reflexivity.
  assert (Hin : includes (trim Demo.printed) (@CMD_INIT_FILE Demo.keeping)
                = false) by reflexivity.
  assert (Hadd : @spawn Demo.keeping (execd Demo.fresh ++ [regQuery])
                   (regAdd (@newAutoRun Demo.keeping
                              (existingValue (trim Demo.printed))))
                 = inr (js "The operation completed successfully."))
    by reflexivity.
  assert (Hq' : @spawn Demo.keeping
                  (execd Demo.fresh
                   ++ [regQuery;
                       regAdd (@newAutoRun Demo.keeping
                                 (existingValue (trim Demo.printed)))])
                  regQuery
                = inr Demo.printedJoined) by reflexivity.
  assert (Hin' : includes (trim Demo.printedJoined)
                   (@newAutoRun Demo.keeping
                      (existingValue (trim Demo.printed))) = true)
    by reflexivity.
  split; [exact Hio|]. split; [exact Hdir|]. split; [exact Hq|].
  split; [exact Hin|]. split; [exact Hadd|]. split; [exact Hq'|].
  split; [exact Hin'|].
  exact (@autoRun_registration_idempotent Demo.keeping Demo.fresh
           Demo.printed _ Demo.printedJoined Hio Hdir Hq Hin Hadd Hq' Hin').
Defined.

(** Witness of X12 on an empty disk: the directory and the directories
    above it are made. *)
Lemma profile_directory_made_when_missing_witness :
  let H := Demo.unset in
  fs Demo.fresh !! POWERSHELL_PROFILE_5 = None
  /\ fs Demo.fresh !! POWERSHELL_PROFILE_6 = None
  /\ permissive
  /\ join [POWERSHELL_PROFILE_5; js ".."] <> POWERSHELL_PROFILE_5
  /\ (POWERSHELL_PROFILE_5
      ∉ ancestors (join [POWERSHELL_PROFILE_5; js ".."]))
  /\ fs Demo.fresh !! join [POWERSHELL_PROFILE_5; js ".."] = None
  /\ (forall above content,
        above ∈ ancestors (join [POWERSHELL_PROFILE_5; js ".."]) ->
        fs Demo.fresh !! above <> Some (File content))
  /\ fs (setupPowerShell Demo.fresh).2
     = <[POWERSHELL_PROFILE_5 := File markerBlock]>
         (foldr makeDir (fs Demo.fresh)
            (join [POWERSHELL_PROFILE_5; js ".."]
             :: ancestors (join [POWERSHELL_PROFILE_5; js ".."])))
  /\ fs (setupPowerShell Demo.fresh).2 !! js "C:\Users\dev\Documents"
     = Some Dir.
Proof.
  cbv zeta.
  assert (H5 : fs Demo.fresh !! @POWERSHELL_PROFILE_5 Demo.unset = None)
    by reflexivity.
  assert (H6 : fs Demo.fresh !! @POWERSHELL_PROFILE_6 Demo.unset = None)
    by reflexivity.
  assert (Hio : @permissive Demo.unset) by (intros files op; reflexivity).
  assert (Hdir : @join Demo.unset [@POWERSHELL_PROFILE_5 Demo.unset; js ".."]
                 <> @POWERSHELL_PROFILE_5 Demo.unset)
    by (vm_compute; discriminate).
  assert (Habove : @POWERSHELL_PROFILE_5 Demo.unset
                   ∉ ancestors (@join Demo.unset
                                  [@POWERSHELL_PROFILE_5 Demo.unset; js ".."]))
    by (apply (bool_decide_unpack _); exact I).
  assert (Hd : fs Demo.fresh
               !! @join Demo.unset [@POWERSHELL_PROFILE_5 Demo.unset; js ".."]
               = None) by reflexivity.
  assert (Hfiles : forall above content,
            above ∈ ancestors (@join Demo.unset
                                 [@POWERSHELL_PROFILE_5 Demo.unset; js ".."]) ->
            fs Demo.fresh !! above <> Some (File content))
    by (intros above content _ Hf; discriminate Hf).
  split; [exact H5|]. split; [exact H6|]. split; [exact Hio|].
  split; [exact Hdir|]. split; [exact Habove|]. split; [exact Hd|].
  split; [exact Hfiles|].
  destruct (proj1 (@profile_directory_made_when_missing Demo.unset Demo.fresh
                     H5 H6 Hio Hdir Habove) Hd Hfiles) as [Hfs Hmade].
  split; [exact Hfs|].
  apply Hmade. apply (bool_decide_unpack _). exact I.
Defined.

(** Witness of X13 with AutoRun set. *)
Lemma setupCmd_reports_once_witness :
  let H := Demo.withValue in
  writable (fs Demo.fresh) CMD_INIT_FILE cmdContent
  /\ exists w' report commands,
       setupCmd Demo.fresh = (Ok tt, w')
       /\ console w' = console Demo.fresh ++ cmdHeader ++ report
       /\ (report = [autoRunKept] \/ report = [autoRunConfigured]
           \/ report = manualSetup)
       /\ execd w' = execd Demo.fresh ++ commands
       /\ (commands = [regQuery]
           \/ exists value, commands = [regQuery; regAdd value]).
Proof.
  cbv zeta.
  assert (Hw : @writable Demo.withValue (fs Demo.fresh)
                 (@CMD_INIT_FILE Demo.withValue) cmdContent)
    by (split; [reflexivity|vm_compute; discriminate]).
  split; [exact Hw|].
  exact (@setupCmd_reports_once Demo.withValue Demo.fresh Hw).
Defined.

(** Witness of X14 with [reg add] refused. *)
Lemma registry_never_fails_the_run_witness :
  let H := Demo.denied in
  spawn (execd Demo.fresh) (js "fnm --version") = inr (js "fnm 1.38.1" ++ nl)
  /\ setupPowerShell (preflightPassed Demo.fresh) = (Ok tt, Demo.readyForCmd)
  /\ writable (fs Demo.readyForCmd) CMD_INIT_FILE cmdContent
  /\ (run Demo.fresh).1 = 0%Z
  /\ fs (run Demo.fresh).2
     = <[CMD_INIT_FILE := File cmdContent]> (fs Demo.readyForCmd).
Proof.
  cbv zeta.
  assert (H0 : @spawn Demo.denied (execd Demo.fresh) (js "fnm --version")
               = inr (js "fnm 1.38.1" ++ nl)) by reflexivity.
  assert (H1 : @setupPowerShell Demo.denied (preflightPassed Demo.fresh)
               = (Ok tt, Demo.readyForCmd)) by reflexivity.
  assert (H2 : @writable Demo.denied (fs Demo.readyForCmd)
                 (@CMD_INIT_FILE Demo.denied) cmdContent)
    by (split; [reflexivity|vm_compute; discriminate]).
  split; [exact H0|]. split; [exact H1|]. split; [exact H2|].
  exact (@registry_never_fails_the_run Demo.denied Demo.fresh
           Demo.readyForCmd _ H0 H1 H2).
Defined.
